(** * libsyspass.py: the sysPass JSON-RPC client, embedded in Rocq

    The embedding follows [src/libsyspass.py] method by method.  A Python
    value that travels through the client (an argument, a JSON document
    returned by [req.json()]) is a [json]; a method is a computation in a
    small state-and-exception monad whose state holds the client instance
    and the log of the HTTP requests issued so far. *)

From Stdlib Require Import ZArith List String Ascii Bool Lia.
From Stdlib Require Import Floats.SpecFloat.
Import ListNotations.
Open Scope string_scope.
Open Scope Z_scope.
Set Warnings "-register-all".

(** ** Python values *)

(** What [json.loads] can produce, which is also what the caller hands to the
    methods: [None], booleans, integers, floats, text, lists and dicts.  A dict
    is kept as the list of its items; its keys are text and pairwise distinct,
    and [assoc] reads the first binding of a key. *)
Inductive json : Type :=
| JNull
| JBool (b : bool)
| JInt (z : Z)
| JFloat (f : spec_float)
| JString (s : string)
| JList (l : list json)
| JObject (kv : list (string * json)).

(** The exceptions the methods can end with.  [AnsibleError msg arg] stands
    for [AnsibleError(msg % arg)]: the text [msg] followed by the rendering of
    [arg]. *)
Inductive exn : Type :=
| KeyError (k : json)
| TypeError
| AttributeError
| IndexError
| ValueError
| RequestException
| AnsibleError (msg : string) (arg : json).

Inductive outcome (A : Type) : Type :=
| Returns (a : A)
| Raises (e : exn).
Arguments Returns {A} a.
Arguments Raises {A} e.

Definition obind {A B : Type} (o : outcome A) (k : A -> outcome B) : outcome B :=
  match o with
  | Returns a => k a
  | Raises e => Raises e
  end.

Notation "x <~ o ;; k" := (obind o (fun x => k))
  (at level 61, o at next level, right associativity).

(** The interpreter the plugin runs under: the file asks for python2 in its
    first line and carries the python 3 [__future__] imports. *)
Inductive PyVersion : Type := Py2 | Py3.

Fixpoint assoc (k : string) (kv : list (string * json)) : option json :=
  match kv with
  | [] => None
  | (k', v) :: rest => if String.eqb k k' then Some v else assoc k rest
  end.

(** [v[k]] for a text key [k]. *)
Definition getitem (v : json) (k : string) : outcome json :=
  match v with
  | JObject kv =>
      match assoc k kv with
      | Some x => Returns x
      | None => Raises (KeyError (JString k))
      end
  | _ => Raises TypeError
  end.

(** [v[0]]. *)
Definition getitem0 (v : json) : outcome json :=
  match v with
  | JList (x :: _) => Returns x
  | JList [] => Raises IndexError
  | JString (String c _) => Returns (JString (String c EmptyString))
  | JString EmptyString => Raises IndexError
  | JObject _ => Raises (KeyError (JInt 0))
  | _ => Raises TypeError
  end.

(** The values a [for] loop over [v] goes through: the elements of a list,
    the keys of a dict, the characters of a text. *)
Definition py_iter (v : json) : outcome (list json) :=
  match v with
  | JList l => Returns l
  | JObject kv => Returns (map (fun p => JString (fst p)) kv)
  | JString s =>
      Returns (map (fun c => JString (String c EmptyString)) (list_ascii_of_string s))
  | _ => Raises TypeError
  end.

Definition is_substring (k s : string) : bool :=
  match String.index 0 k s with
  | Some _ => true
  | None => false
  end.

Definition is_text (k : string) (v : json) : bool :=
  match v with
  | JString s => String.eqb s k
  | _ => false
  end.

(** [k in v] for a text [k]. *)
Definition py_in (k : string) (v : json) : outcome bool :=
  match v with
  | JObject kv =>
      Returns (match assoc k kv with Some _ => true | None => false end)
  | JList l => Returns (existsb (is_text k) l)
  | JString s => Returns (is_substring k s)
  | _ => Raises TypeError
  end.

Definition SFzero : spec_float := S754_zero false.

(** [v > 0].  Numbers compare by value, [True] being 1 and [False] 0.  For
    the other values Python 2 falls back on its fixed order of types, in which
    [None] is below every number and every text, list and dict above; Python 3
    refuses the comparison. *)
Definition py_gt0 (ver : PyVersion) (v : json) : outcome bool :=
  match v with
  | JInt z => Returns (0 <? z)
  | JFloat f => Returns (SFltb SFzero f)
  | JBool b => Returns b
  | JNull =>
      match ver with Py2 => Returns false | Py3 => Raises TypeError end
  | JString _ | JList _ | JObject _ =>
      match ver with Py2 => Returns true | Py3 => Raises TypeError end
  end.

(** [v == 0]. *)
Definition py_eq0 (v : json) : bool :=
  match v with
  | JInt z => z =? 0
  | JFloat f => SFeqb f SFzero
  | JBool b => negb b
  | _ => false
  end.

(** [v == text] for a text [text]. *)
Definition py_eq_text (v : json) (text : string) : bool := is_text text v.

(** [v.upper()], given the function [upper] that upper-cases a text. *)
Definition py_upper (upper : string -> string) (v : json) : outcome string :=
  match v with
  | JString s => Returns (upper s)
  | _ => Raises AttributeError
  end.

(** Upper-casing of the letters a to z, the part of [str.upper] that does not
    depend on the interpreter or on the locale. *)
Definition ascii_upper_char (c : ascii) : ascii :=
  let n := nat_of_ascii c in
  if andb (Nat.leb 97 n) (Nat.leb n 122) then ascii_of_nat (n - 32) else c.

Fixpoint ascii_upper (s : string) : string :=
  match s with
  | EmptyString => EmptyString
  | String c rest => String (ascii_upper_char c) (ascii_upper rest)
  end.

(** ** The client instance and the network *)

Record SyspassClient : Type := mkClient {
  API_KEY : json;
  API_URL : string;
  API_ACC_TOKPWD : json;
  rId : Z
}.

(** [SyspassClient.__init__]. *)
Definition init (key : json) (url : string) (tokpwd : json) : SyspassClient :=
  {| API_KEY := key; API_URL := url; API_ACC_TOKPWD := tokpwd; rId := 1 |}.

(** One call of [requests.post(url, json = body, verify = ...)]. *)
Record Request : Type := mkRequest {
  url : string;
  body : json;
  verify : bool
}.

(** What comes back from a call: [requests.post] itself raises, or it returns
    a response whose body is not JSON ([json()] raises [ValueError]), or a
    response whose body parses to a document. *)
Inductive HttpOutcome : Type :=
| PostRaises
| BodyNotJson
| BodyJson (doc : json).

(** The object [requests.post] returns: its parsed body, when there is one. *)
Definition Response : Type := option json.

Record World : Type := mkWorld {
  client : SyspassClient;
  log : list Request
}.

Definition M (A : Type) : Type := World -> World * outcome A.

Definition bind {A B : Type} (m : M A) (k : A -> M B) : M B :=
  fun w =>
    match m w with
    | (w', Returns a) => k a w'
    | (w', Raises e) => (w', Raises e)
    end.

Notation "x <- m ;; k" := (bind m (fun x => k))
  (at level 61, m at next level, right associativity).
Notation "m ;;; k" := (bind m (fun _ => k))
  (at level 61, right associativity).

Definition lift {A : Type} (o : outcome A) : M A := fun w => (w, o).

(** [self.f]. *)
Definition self {A : Type} (f : SyspassClient -> A) : M A :=
  fun w => (w, Returns (f (client w))).

(** [self.rId += 1]. *)
Definition rId_incr : M unit :=
  fun w =>
    let c := client w in
    ({| client := {| API_KEY := API_KEY c; API_URL := API_URL c;
                     API_ACC_TOKPWD := API_ACC_TOKPWD c; rId := rId c + 1 |};
        log := log w |}, Returns tt).

(** [req.json()]. *)
Definition response_json (r : Response) : outcome json :=
  match r with
  | Some doc => Returns doc
  | None => Raises ValueError
  end.

(** The body of a JSON-RPC request as the methods build it. *)
Definition rpc (method : string) (params : list (string * json)) (id : Z) : json :=
  JObject [("jsonrpc", JString "2.0");
           ("method", JString method);
           ("params", JObject params);
           ("id", JInt id)].

(** The [for res in ...: if <test>: return <hit>] loop that ends a search
    method: the first entry that passes the test makes the method return
    [hit]; when the entries run out the method falls off its end and returns
    [None]. *)
Fixpoint search_loop (test : json -> outcome bool) (hit : outcome json)
    (entries : list json) : outcome json :=
  match entries with
  | [] => Returns JNull
  | res :: rest =>
      b <~ test res ;;
      if b then hit else search_loop test hit rest
  end.

Section Client.

(** The interpreter, the upper-casing of texts, and the remote side: the
    answer to a call may depend on every request made so far, the last of the
    list being the call itself. *)
Variable ver : PyVersion.
Variable upper : string -> string.
Variable env : list Request -> HttpOutcome.

(** [requests.post(self.API_URL, json = data, verify = v)]. *)
Definition requests_post (data : json) (v : bool) : M Response :=
  fun w =>
    let rq := {| url := API_URL (client w); body := data; verify := v |} in
    let w' := {| client := client w; log := log w ++ [rq] |} in
    match env (log w') with
    | PostRaises => (w', Raises RequestException)
    | BodyNotJson => (w', Returns None)
    | BodyJson doc => (w', Returns (Some doc))
    end.

(** [res['name'] == text]. *)
Definition name_is (text : string) (res : json) : outcome bool :=
  n <~ getitem res "name" ;;
  Returns (py_eq_text n text).

(** [res['name'].upper() == text.upper()]. *)
Definition name_is_upper (text : string) (res : json) : outcome bool :=
  n <~ getitem res "name" ;;
  u <~ py_upper upper n ;;
  Returns (String.eqb u (upper text)).

(** [SyspassClient.AccountSearch], lines 123-151. *)
Definition AccountSearch (text : string) (count categoryId clientId matchAll : json)
  : M json :=
  key <- self API_KEY ;;
  id <- self rId ;;
  let data := rpc "account/search"
                [("authToken", key); ("text", JString text); ("count", count);
                 ("categoryId", categoryId); ("clientId", clientId)] id in
  rId_incr ;;;
  req <- requests_post data true ;;
  lift (req <~ response_json req ;;
        r <~ getitem req "result" ;;
        c <~ getitem r "count" ;;
        b <~ py_gt0 ver c ;;
        if b then
          match matchAll with
          | JNull =>
              r1 <~ getitem req "result" ;;
              l <~ getitem r1 "result" ;;
              entries <~ py_iter l ;;
              search_loop (name_is text)
                (r2 <~ getitem req "result" ;;
                 l2 <~ getitem r2 "result" ;;
                 getitem0 l2)
                entries
          | _ =>
              r1 <~ getitem req "result" ;;
              getitem r1 "result"
          end
        else
          e <~ py_in "error" req ;;
          if e then Raises (AnsibleError "AccountSearch Error : " req)
          else Returns JNull).

(** [SyspassClient.AccountViewpass], lines 153-175. *)
Definition AccountViewpass (uId : json) : M json :=
  key <- self API_KEY ;;
  tok <- self API_ACC_TOKPWD ;;
  id <- self rId ;;
  let data := rpc "account/viewPass"
                [("authToken", key); ("id", uId); ("tokenPass", tok)] id in
  rId_incr ;;;
  req <- requests_post data false ;;
  lift (req <~ response_json req ;;
        r <~ getitem req "result" ;;
        c <~ getitem r "count" ;;
        b <~ py_gt0 ver c ;;
        if b then
          r1 <~ getitem req "result" ;;
          a <~ getitem r1 "result" ;;
          getitem a "password"
        else
          Raises (AnsibleError "AccountViewpass Error : " req)).

(** [SyspassClient.AccountCreate], lines 177-221. *)
Definition AccountCreate
    (name categoryId clientId password login url tags notes : json)
    (private privateGroup userGroupId expireDate parentId : json) : M json :=
  key <- self API_KEY ;;
  tok <- self API_ACC_TOKPWD ;;
  id <- self rId ;;
  let data := rpc "account/create"
                [("authToken", key); ("tokenPass", tok); ("name", name);
                 ("categoryId", categoryId); ("clientId", clientId);
                 ("userGroupId", userGroupId); ("pass", password); ("login", login);
                 ("url", url); ("tagsId", tags); ("notes", notes);
                 ("private", private); ("privateGroup", privateGroup);
                 ("expireDate", expireDate); ("parentId", parentId)] id in
  rId_incr ;;;
  req <- requests_post data false ;;
  lift (req <~ response_json req ;;
        r <~ getitem req "result" ;;
        c <~ getitem r "itemId" ;;
        b <~ py_gt0 ver c ;;
        if b then
          r1 <~ getitem req "result" ;;
          Returns r1
        else
          Raises (AnsibleError "AccountCreate Error : " req)).

(** [SyspassClient.AccountDelete], lines 223-243. *)
Definition AccountDelete (uId : json) : M json :=
  key <- self API_KEY ;;
  tok <- self API_ACC_TOKPWD ;;
  id <- self rId ;;
  let data := rpc "account/delete"
                [("authToken", key); ("id", uId); ("tokenPass", tok)] id in
  rId_incr ;;;
  req <- requests_post data false ;;
  lift (req <~ response_json req ;;
        r <~ getitem req "result" ;;
        c <~ getitem r "resultCode" ;;
        if py_eq0 c then
          r1 <~ getitem req "result" ;;
          Returns r1
        else
          Raises (AnsibleError "AccountDelete Error : " req)).

(** [SyspassClient.AccountView], lines 245-264. *)
Definition AccountView (uId : json) : M json :=
  key <- self API_KEY ;;
  id <- self rId ;;
  let data := rpc "account/view"
                [("authToken", key); ("id", uId)] id in
  rId_incr ;;;
  req <- requests_post data false ;;
  lift (req <~ response_json req ;;
        r <~ getitem req "result" ;;
        c <~ getitem r "count" ;;
        b <~ py_gt0 ver c ;;
        if b then
          r1 <~ getitem req "result" ;;
          getitem r1 "result"
        else
          Raises (AnsibleError "AccountView Error : " req)).

(** [SyspassClient.CategorySearch], lines 267-294. *)
Definition CategorySearch (text : string) (count : json) : M json :=
  key <- self API_KEY ;;
  id <- self rId ;;
  let data := rpc "category/search"
                [("authToken", key); ("text", JString text); ("count", count)] id in
  rId_incr ;;;
  req <- requests_post data false ;;
  lift (req <~ response_json req ;;
        r <~ getitem req "result" ;;
        c <~ getitem r "count" ;;
        b <~ py_gt0 ver c ;;
        if b then
          r1 <~ getitem req "result" ;;
          l <~ getitem r1 "result" ;;
          entries <~ py_iter l ;;
          search_loop (name_is text)
            (r2 <~ getitem req "result" ;;
             l2 <~ getitem r2 "result" ;;
             getitem0 l2)
            entries
        else
          e <~ py_in "error" req ;;
          if e then
            err <~ getitem req "error" ;;
            Raises (AnsibleError "CategorySearch Error : " err)
          else Returns JNull).

(** [SyspassClient.CategoryCreate], lines 296-316. *)
Definition CategoryCreate (name description : json) : M json :=
  key <- self API_KEY ;;
  id <- self rId ;;
  let data := rpc "category/create"
                [("authToken", key); ("name", name); ("description", description)] id in
  rId_incr ;;;
  req <- requests_post data false ;;
  lift (req <~ response_json req ;;
        r <~ getitem req "result" ;;
        c <~ getitem r "itemId" ;;
        b <~ py_gt0 ver c ;;
        if b then
          r1 <~ getitem req "result" ;;
          Returns r1
        else
          Raises (AnsibleError "CategoryCreate Error : " req)).

(** [SyspassClient.CategoryDelete], lines 318-337. *)
Definition CategoryDelete (Id : json) : M json :=
  key <- self API_KEY ;;
  id <- self rId ;;
  let data := rpc "category/delete"
                [("authToken", key); ("id", Id)] id in
  rId_incr ;;;
  req <- requests_post data false ;;
  lift (req <~ response_json req ;;
        r <~ getitem req "result" ;;
        c <~ getitem r "resultCode" ;;
        if py_eq0 c then
          r1 <~ getitem req "result" ;;
          Returns r1
        else
          Raises (AnsibleError "CategoryDelete Error : " req)).

(** [SyspassClient.ClientSearch], lines 339-363. *)
Definition ClientSearch (text : string) (count : json) : M json :=
  key <- self API_KEY ;;
  id <- self rId ;;
  let data := rpc "client/search"
                [("authToken", key); ("text", JString text); ("count", count)] id in
  rId_incr ;;;
  req <- requests_post data false ;;
  lift (req <~ response_json req ;;
        r <~ getitem req "result" ;;
        c <~ getitem r "count" ;;
        b <~ py_gt0 ver c ;;
        if b then
          r1 <~ getitem req "result" ;;
          l <~ getitem r1 "result" ;;
          entries <~ py_iter l ;;
          search_loop (name_is_upper text)
            (r2 <~ getitem req "result" ;;
             l2 <~ getitem r2 "result" ;;
             getitem0 l2)
            entries
        else
          e <~ py_in "error" req ;;
          if e then
            err <~ getitem req "error" ;;
            Raises (AnsibleError "ClientSearch Error : " err)
          else Returns JNull).

(** [SyspassClient.ClientCreate], lines 365-386. *)
Definition ClientCreate (name description Global : json) : M json :=
  key <- self API_KEY ;;
  id <- self rId ;;
  let data := rpc "client/create"
                [("authToken", key); ("name", name); ("description", description);
                 ("global", Global)] id in
  rId_incr ;;;
  req <- requests_post data false ;;
  lift (req <~ response_json req ;;
        r <~ getitem req "result" ;;
        c <~ getitem r "itemId" ;;
        b <~ py_gt0 ver c ;;
        if b then
          r1 <~ getitem req "result" ;;
          Returns r1
        else
          Raises (AnsibleError "ClientCreate Error : " req)).

(** [SyspassClient.ClientDelete], lines 388-407. *)
Definition ClientDelete (cId : json) : M json :=
  key <- self API_KEY ;;
  id <- self rId ;;
  let data := rpc "client/delete"
                [("authToken", key); ("id", cId)] id in
  rId_incr ;;;
  req <- requests_post data false ;;
  lift (req <~ response_json req ;;
        r <~ getitem req "result" ;;
        c <~ getitem r "resultCode" ;;
        if py_eq0 c then
          r1 <~ getitem req "result" ;;
          Returns r1
        else
          Raises (AnsibleError "ClientDelete Error : " req)).

(** [SyspassClient.TagCreate], lines 409-428. *)
Definition TagCreate (name : json) : M json :=
  key <- self API_KEY ;;
  id <- self rId ;;
  let data := rpc "tag/create"
                [("authToken", key); ("name", name)] id in
  rId_incr ;;;
  req <- requests_post data false ;;
  lift (req <~ response_json req ;;
        r <~ getitem req "result" ;;
        c <~ getitem r "itemId" ;;
        b <~ py_gt0 ver c ;;
        if b then
          r1 <~ getitem req "result" ;;
          Returns r1
        else
          Raises (AnsibleError "TagCreate Error : " req)).

(** [SyspassClient.TagSearch], lines 430-454. *)
Definition TagSearch (text : string) (count : json) : M json :=
  key <- self API_KEY ;;
  id <- self rId ;;
  let data := rpc "tag/search"
                [("authToken", key); ("text", JString text); ("count", count)] id in
  rId_incr ;;;
  req <- requests_post data false ;;
  lift (req <~ response_json req ;;
        r <~ getitem req "result" ;;
        c <~ getitem r "count" ;;
        b <~ py_gt0 ver c ;;
        if b then
          r1 <~ getitem req "result" ;;
          l <~ getitem r1 "result" ;;
          entries <~ py_iter l ;;
          search_loop (name_is_upper text)
            (r2 <~ getitem req "result" ;;
             l2 <~ getitem r2 "result" ;;
             getitem0 l2)
            entries
        else
          e <~ py_in "error" req ;;
          if e then
            err <~ getitem req "error" ;;
            Raises (AnsibleError "TagSearch Error : " err)
          else Returns JNull).

(** [SyspassClient.TagDelete], lines 456-475. *)
Definition TagDelete (tId : json) : M json :=
  key <- self API_KEY ;;
  id <- self rId ;;
  let data := rpc "tag/delete"
                [("authToken", key); ("id", tId)] id in
  rId_incr ;;;
  req <- requests_post data false ;;
  lift (req <~ response_json req ;;
        r <~ getitem req "result" ;;
        c <~ getitem r "resultCode" ;;
        if py_eq0 c then
          r1 <~ getitem req "result" ;;
          Returns r1
        else
          Raises (AnsibleError "TagDelete Error : " req)).

(** [SyspassClient.UserGroupCreate], lines 477-497. *)
Definition UserGroupCreate (name description : json) : M json :=
  key <- self API_KEY ;;
  id <- self rId ;;
  let data := rpc "userGroup/create"
                [("authToken", key); ("name", name); ("description", description)] id in
  rId_incr ;;;
  req <- requests_post data false ;;
  lift (req <~ response_json req ;;
        r <~ getitem req "result" ;;
        c <~ getitem r "itemId" ;;
        b <~ py_gt0 ver c ;;
        if b then
          r1 <~ getitem req "result" ;;
          Returns r1
        else
          Raises (AnsibleError "UserGroupCreate Error : " req)).

(** [SyspassClient.UserGroupSearch], lines 499-523. *)
Definition UserGroupSearch (text : string) (count : json) : M json :=
  key <- self API_KEY ;;
  id <- self rId ;;
  let data := rpc "userGroup/search"
                [("authToken", key); ("text", JString text); ("count", count)] id in
  rId_incr ;;;
  req <- requests_post data false ;;
  lift (req <~ response_json req ;;
        r <~ getitem req "result" ;;
        c <~ getitem r "count" ;;
        b <~ py_gt0 ver c ;;
        if b then
          r1 <~ getitem req "result" ;;
          l <~ getitem r1 "result" ;;
          entries <~ py_iter l ;;
          search_loop (name_is_upper text)
            (r2 <~ getitem req "result" ;;
             l2 <~ getitem r2 "result" ;;
             getitem0 l2)
            entries
        else
          e <~ py_in "error" req ;;
          if e then
            err <~ getitem req "error" ;;
            Raises (AnsibleError "UserGroupSearch Error : " err)
          else Returns JNull).

(** [SyspassClient.UserGroupDelete], lines 525-544. *)
Definition UserGroupDelete (ugId : json) : M json :=
  key <- self API_KEY ;;
  id <- self rId ;;
  let data := rpc "userGroup/delete"
                [("authToken", key); ("id", ugId)] id in
  rId_incr ;;;
  req <- requests_post data false ;;
  lift (req <~ response_json req ;;
        r <~ getitem req "result" ;;
        c <~ getitem r "resultCode" ;;
        if py_eq0 c then
          r1 <~ getitem req "result" ;;
          Returns r1
        else
          Raises (AnsibleError "UserGroupDelete Error : " req)).

(** [SyspassClient.Backup], lines 546-563. *)
Definition Backup : M json :=
  key <- self API_KEY ;;
  id <- self rId ;;
  let data := rpc "backup" [("authToken", key)] id in
  rId_incr ;;;
  req <- requests_post data false ;;
  lift (j <~ response_json req ;;
        b <~ py_in "result" j ;;
        if b then
          j1 <~ response_json req ;;
          getitem j1 "result"
        else
          j2 <~ response_json req ;;
          Raises (AnsibleError "Backup Error : " j2)).

(** A call of one of the methods with its arguments, as the plugin makes
    them one after the other on the same instance. *)
Inductive OpCall : Type :=
| CallAccountSearch (text : string) (count categoryId clientId matchAll : json)
| CallAccountViewpass (uId : json)
| CallAccountCreate
    (name categoryId clientId password login url tags notes : json)
    (private privateGroup userGroupId expireDate parentId : json)
| CallAccountDelete (uId : json)
| CallAccountView (uId : json)
| CallCategorySearch (text : string) (count : json)
| CallCategoryCreate (name description : json)
| CallCategoryDelete (Id : json)
| CallClientSearch (text : string) (count : json)
| CallClientCreate (name description Global : json)
| CallClientDelete (cId : json)
| CallTagCreate (name : json)
| CallTagSearch (text : string) (count : json)
| CallTagDelete (tId : json)
| CallUserGroupCreate (name description : json)
| CallUserGroupSearch (text : string) (count : json)
| CallUserGroupDelete (ugId : json)
| CallBackup.

Definition run_op (c : OpCall) : M json :=
  match c with
  | CallAccountSearch text count categoryId clientId matchAll =>
      AccountSearch text count categoryId clientId matchAll
  | CallAccountViewpass uId => AccountViewpass uId
  | CallAccountCreate name categoryId clientId password login url tags notes
      private privateGroup userGroupId expireDate parentId =>
      AccountCreate name categoryId clientId password login url tags notes
        private privateGroup userGroupId expireDate parentId
  | CallAccountDelete uId => AccountDelete uId
  | CallAccountView uId => AccountView uId
  | CallCategorySearch text count => CategorySearch text count
  | CallCategoryCreate name description => CategoryCreate name description
  | CallCategoryDelete Id => CategoryDelete Id
  | CallClientSearch text count => ClientSearch text count
  | CallClientCreate name description Global => ClientCreate name description Global
  | CallClientDelete cId => ClientDelete cId
  | CallTagCreate name => TagCreate name
  | CallTagSearch text count => TagSearch text count
  | CallTagDelete tId => TagDelete tId
  | CallUserGroupCreate name description => UserGroupCreate name description
  | CallUserGroupSearch text count => UserGroupSearch text count
  | CallUserGroupDelete ugId => UserGroupDelete ugId
  | CallBackup => Backup
  end.

(** The calls of a list made in turn; the caller goes on to the next call
    whether the previous one returned or raised. *)
Fixpoint run_ops (cs : list OpCall) (w : World) : World :=
  match cs with
  | [] => w
  | c :: rest => run_ops rest (fst (run_op c w))
  end.

End Client.

(** ** Answers, predicates and the reference descriptions used in the statements *)

(** The remote side that answers [doc] to whatever it is sent. *)
Definition always (doc : json) : list Request -> HttpOutcome :=
  fun _ => BodyJson doc.

(** A client just built, before any call. *)
Definition fresh (key : json) (url : string) (tokpwd : json) : World :=
  {| client := init key url tokpwd; log := [] |}.

(** What the sysPass server answers when a call fails: a JSON-RPC error
    envelope, which has no [result] member. *)
Definition error_envelope : json :=
  JObject [("jsonrpc", JString "2.0");
           ("error", JObject [("message", JString "Internal error");
                              ("code", JInt (-32603));
                              ("data", JNull)]);
           ("id", JInt 1)].

(** A JSON number greater than zero. *)
Definition json_gt0 (v : json) : bool :=
  match v with
  | JInt z => 0 <? z
  | JFloat f => SFltb SFzero f
  | _ => false
  end.

Definition is_number (v : json) : bool :=
  match v with
  | JInt _ | JFloat _ => true
  | _ => false
  end.

(** An answer that has both a positive [result.count] and an [error]
    member, none of its entries being named [db]. *)
Definition count_and_error : json :=
  JObject [("jsonrpc", JString "2.0");
           ("result", JObject [("count", JInt 1);
                               ("result", JList [JObject [("name", JString "web")]])]);
           ("error", JObject [("message", JString "denied")]);
           ("id", JInt 1)].

(** An answer that has a zero [result.count] and an [error] member. *)
Definition zero_and_error : json :=
  JObject [("jsonrpc", JString "2.0");
           ("result", JObject [("count", JInt 0); ("result", JList [])]);
           ("error", JObject [("message", JString "denied")]);
           ("id", JInt 1)].

(** The operation ended with [AnsibleError] built from the whole answer. *)
Definition surfaces_raw (o : outcome json) (req : json) : Prop :=
  exists msg, o = Raises (AnsibleError msg req).

(** An entry that can be asked for its name. *)
Definition has_name (e : json) : Prop :=
  exists n, getitem e "name" = Returns n.

(** Two accounts, the second of which is the one named [db]. *)
Definition two_accounts : json :=
  JObject [("jsonrpc", JString "2.0");
           ("result",
            JObject [("count", JInt 2);
                     ("result", JList [JObject [("id", JInt 1); ("name", JString "db-old")];
                                       JObject [("id", JInt 2); ("name", JString "db")]])]);
           ("id", JInt 1)].

(** The name of an entry differs from the search text. *)
Definition name_differs (text : string) (e : json) : Prop :=
  exists n, getitem e "name" = Returns n /\ n <> JString text.

(** The name of an entry is a text that, upper-cased, differs from the
    upper-cased search text. *)
Definition name_differs_upper (upper : string -> string) (text : string)
    (e : json) : Prop :=
  exists n, getitem e "name" = Returns (JString n) /\ upper n <> upper text.

(** The answer to a search that found one entry, named [stored]. *)
Definition one_entry (stored : string) : json :=
  JObject [("jsonrpc", JString "2.0");
           ("result",
            JObject [("count", JInt 1);
                     ("result", JList [JObject [("id", JInt 5);
                                                ("name", JString stored)]])]);
           ("id", JInt 1)].

(** One step into a document: the member under a key, or the item at
    index 0. *)
Inductive step : Type :=
| Member (k : string)
| Index0.

Fixpoint follow (path : list step) (v : json) : outcome json :=
  match path with
  | [] => Returns v
  | Member k :: rest => x <~ getitem v k ;; follow rest x
  | Index0 :: rest => x <~ getitem0 v ;; follow rest x
  end.

(** The arguments of a call that are meant for the remote method: all of
    them but [matchAll], which steers [AccountSearch] itself. *)
Definition spec_remote_args (c : OpCall) : list json :=
  match c with
  | CallAccountSearch text count categoryId clientId _ =>
      [JString text; count; categoryId; clientId]
  | CallAccountCreate name categoryId clientId password login url tags notes
      private privateGroup userGroupId expireDate parentId =>
      [name; categoryId; clientId; password; login; url; tags; notes; private;
       privateGroup; userGroupId; expireDate; parentId]
  | CallAccountViewpass a | CallAccountDelete a | CallAccountView a
  | CallCategoryDelete a | CallClientDelete a | CallTagCreate a
  | CallTagDelete a | CallUserGroupDelete a => [a]
  | CallCategorySearch text count | CallClientSearch text count
  | CallTagSearch text count | CallUserGroupSearch text count =>
      [JString text; count]
  | CallCategoryCreate name description
  | CallUserGroupCreate name description => [name; description]
  | CallClientCreate name description Global => [name; description; Global]
  | CallBackup => []
  end.

(** Where in the answer the value a call returns is read. *)
Definition spec_returned_path (c : OpCall) : list step :=
  match c with
  | CallAccountSearch _ _ _ _ JNull
  | CallCategorySearch _ _ | CallClientSearch _ _
  | CallTagSearch _ _ | CallUserGroupSearch _ _ =>
      [Member "result"; Member "result"; Index0]
  | CallAccountSearch _ _ _ _ _ | CallAccountView _ =>
      [Member "result"; Member "result"]
  | CallAccountViewpass _ =>
      [Member "result"; Member "result"; Member "password"]
  | _ => [Member "result"]
  end.

Definition is_search (c : OpCall) : bool :=
  match c with
  | CallAccountSearch _ _ _ _ _ | CallCategorySearch _ _ | CallClientSearch _ _
  | CallTagSearch _ _ | CallUserGroupSearch _ _ => true
  | _ => false
  end.

(** The answer to [account/viewPass] for an account whose password is
    [s3cret]. *)
Definition account_password : json :=
  JObject [("jsonrpc", JString "2.0");
           ("result",
            JObject [("itemId", JInt 7);
                     ("result", JObject [("password", JString "s3cret")]);
                     ("resultCode", JInt 0);
                     ("count", JInt 1)]);
           ("id", JInt 1)].

(** The operation returned the [result] member of the answer as it is. *)
Definition returns_result_unchanged (o : outcome json) (req : json) : Prop :=
  exists r, getitem req "result" = Returns r /\ o = Returns r.

(** Modelled from the spec: the generator of the password of a new vault
    entry.  [src/libsyspass.py] only imports [random_password]; the code that
    calls it with the length and the character classes asked for is not part
    of the file.  The spec describes it as bounded random sampling under
    character-class and length constraints: the candidates are the characters
    of the classes asked for, and each of the [length] characters of the
    password is the candidate at a position drawn at random below the number
    of candidates.  [draw i bound] is the [i]-th number drawn, asked to be
    below [bound]. *)
Definition candidate_chars (classes : list (list ascii)) : list ascii :=
  List.concat classes.

(** Modelled from the spec: the sampling itself, [n] characters from the
    draws numbered [i] onwards; a draw that falls outside the candidates
    yields no password. *)
Fixpoint sample (draw : nat -> nat -> nat) (pool : list ascii) (i n : nat)
  : option (list ascii) :=
  match n with
  | O => Some []
  | S k =>
      match nth_error pool (draw i (List.length pool)) with
      | None => None
      | Some ch =>
          match sample draw pool (S i) k with
          | None => None
          | Some rest => Some (ch :: rest)
          end
      end
  end.

(** Modelled from the spec: [random_password], imported by the file and not
    defined in it: [length] characters sampled from the candidates of the
    classes asked for. *)
Definition random_password (draw : nat -> nat -> nat) (length : nat)
    (classes : list (list ascii)) : option (list ascii) :=
  sample draw (candidate_chars classes) 0 length.

(** The draws stay below the bound they are given. *)
Definition bounded (draw : nat -> nat -> nat) : Prop :=
  forall i bound : nat, (0 < bound)%nat -> (draw i bound < bound)%nat.

(** Draws that walk through the candidates in turn. *)
Definition round_robin (i bound : nat) : nat := Nat.modulo i bound.

(** The name of the remote method each method calls. *)
Definition spec_method (c : OpCall) : string :=
  match c with
  | CallAccountSearch _ _ _ _ _ => "account/search"
  | CallAccountViewpass _ => "account/viewPass"
  | CallAccountCreate _ _ _ _ _ _ _ _ _ _ _ _ _ => "account/create"
  | CallAccountDelete _ => "account/delete"
  | CallAccountView _ => "account/view"
  | CallCategorySearch _ _ => "category/search"
  | CallCategoryCreate _ _ => "category/create"
  | CallCategoryDelete _ => "category/delete"
  | CallClientSearch _ _ => "client/search"
  | CallClientCreate _ _ _ => "client/create"
  | CallClientDelete _ => "client/delete"
  | CallTagCreate _ => "tag/create"
  | CallTagSearch _ _ => "tag/search"
  | CallTagDelete _ => "tag/delete"
  | CallUserGroupCreate _ _ => "userGroup/create"
  | CallUserGroupSearch _ _ => "userGroup/search"
  | CallUserGroupDelete _ => "userGroup/delete"
  | CallBackup => "backup"
  end.

(** The members of [params] each method sends: the token of the instance,
    its token password for the three methods that use it, and the arguments
    for the remote method under the names the method gives them. *)
Definition spec_params (s : SyspassClient) (c : OpCall) : list (string * json) :=
  match c with
  | CallAccountSearch text count categoryId clientId _ =>
      [("authToken", API_KEY s); ("text", JString text); ("count", count);
       ("categoryId", categoryId); ("clientId", clientId)]
  | CallAccountViewpass uId =>
      [("authToken", API_KEY s); ("id", uId); ("tokenPass", API_ACC_TOKPWD s)]
  | CallAccountCreate name categoryId clientId password login url tags notes
      private privateGroup userGroupId expireDate parentId =>
      [("authToken", API_KEY s); ("tokenPass", API_ACC_TOKPWD s); ("name", name);
       ("categoryId", categoryId); ("clientId", clientId);
       ("userGroupId", userGroupId); ("pass", password); ("login", login);
       ("url", url); ("tagsId", tags); ("notes", notes); ("private", private);
       ("privateGroup", privateGroup); ("expireDate", expireDate);
       ("parentId", parentId)]
  | CallAccountDelete uId =>
      [("authToken", API_KEY s); ("id", uId); ("tokenPass", API_ACC_TOKPWD s)]
  | CallAccountView a | CallCategoryDelete a | CallClientDelete a
  | CallTagDelete a | CallUserGroupDelete a =>
      [("authToken", API_KEY s); ("id", a)]
  | CallCategorySearch text count | CallClientSearch text count
  | CallTagSearch text count | CallUserGroupSearch text count =>
      [("authToken", API_KEY s); ("text", JString text); ("count", count)]
  | CallCategoryCreate name description | CallUserGroupCreate name description =>
      [("authToken", API_KEY s); ("name", name); ("description", description)]
  | CallClientCreate name description Global =>
      [("authToken", API_KEY s); ("name", name); ("description", description);
       ("global", Global)]
  | CallTagCreate name => [("authToken", API_KEY s); ("name", name)]
  | CallBackup => [("authToken", API_KEY s)]
  end.

(** The member [m] of [r] is there and passes [test]. *)
Definition member_passes (test : json -> bool) (r : json) (m : string) : bool :=
  match getitem r m with
  | Returns v => test v
  | Raises _ => false
  end.

(** The [result] of an answer tells the method that the call succeeded: a
    [count] that is a number greater than zero for the searches and the two
    views, such an [itemId] for the creates, a [resultCode] equal to zero for
    the deletes; [Backup] asks for nothing more than a [result]. *)
Definition spec_success (c : OpCall) (r : json) : bool :=
  match c with
  | CallAccountSearch _ _ _ _ _ | CallCategorySearch _ _ | CallClientSearch _ _
  | CallTagSearch _ _ | CallUserGroupSearch _ _
  | CallAccountViewpass _ | CallAccountView _ => member_passes json_gt0 r "count"
  | CallAccountCreate _ _ _ _ _ _ _ _ _ _ _ _ _ | CallCategoryCreate _ _
  | CallClientCreate _ _ _ | CallTagCreate _ | CallUserGroupCreate _ _ =>
      member_passes json_gt0 r "itemId"
  | CallAccountDelete _ | CallCategoryDelete _ | CallClientDelete _
  | CallTagDelete _ | CallUserGroupDelete _ => member_passes py_eq0 r "resultCode"
  | CallBackup => true
  end.

(** The searches that look for an entry by its name. *)
Definition is_name_search (c : OpCall) : bool :=
  match c with
  | CallAccountSearch _ _ _ _ JNull | CallCategorySearch _ _
  | CallClientSearch _ _ | CallTagSearch _ _ | CallUserGroupSearch _ _ => true
  | _ => false
  end.

(** Some name among [names] is the one searched for: equal to the text for
    [AccountSearch] and [CategorySearch], equal once both are upper-cased for
    the three other searches. *)
Definition spec_name_match (upper : string -> string) (c : OpCall)
    (names : list string) : bool :=
  match c with
  | CallAccountSearch text _ _ _ _ | CallCategorySearch text _ =>
      existsb (fun n => String.eqb n text) names
  | CallClientSearch text _ | CallTagSearch text _ | CallUserGroupSearch text _ =>
      existsb (fun n => String.eqb (upper n) (upper text)) names
  | _ => false
  end.

(** ** Descriptions used in the further properties *)

(** The [id] members of the requests of a log, in the order they were sent. *)
Definition request_ids (l : list Request) : list (outcome json) :=
  map (fun rq => getitem (body rq) "id") l.

(** [n] consecutive ids from [z] on. *)
Fixpoint ids_from (z : Z) (n : nat) : list (outcome json) :=
  match n with
  | O => []
  | S k => Returns (JInt z) :: ids_from (z + 1) k
  end.

Definition is_AccountSearch (c : OpCall) : bool :=
  match c with
  | CallAccountSearch _ _ _ _ _ => true
  | _ => false
  end.

(** The methods whose request carries the token password of the instance. *)
Definition sends_tokenPass (c : OpCall) : bool :=
  match c with
  | CallAccountViewpass _ | CallAccountDelete _
  | CallAccountCreate _ _ _ _ _ _ _ _ _ _ _ _ _ => true
  | _ => false
  end.

(** A value that is neither a number nor a boolean. *)
Definition not_a_number (v : json) : bool :=
  match v with
  | JNull | JString _ | JList _ | JObject _ => true
  | _ => false
  end.

Definition is_text_value (v : json) : bool :=
  match v with
  | JString _ => true
  | _ => false
  end.

(** The member of [result] a method compares with zero by [>], if any. *)
Definition compared_member (c : OpCall) : option string :=
  match c with
  | CallAccountSearch _ _ _ _ _ | CallCategorySearch _ _ | CallClientSearch _ _
  | CallTagSearch _ _ | CallUserGroupSearch _ _
  | CallAccountViewpass _ | CallAccountView _ => Some "count"
  | CallAccountCreate _ _ _ _ _ _ _ _ _ _ _ _ _ | CallCategoryCreate _ _
  | CallClientCreate _ _ _ | CallTagCreate _ | CallUserGroupCreate _ _ =>
      Some "itemId"
  | _ => None
  end.

Definition is_create (c : OpCall) : bool :=
  match c with
  | CallAccountCreate _ _ _ _ _ _ _ _ _ _ _ _ _ | CallCategoryCreate _ _
  | CallClientCreate _ _ _ | CallTagCreate _ | CallUserGroupCreate _ _ => true
  | _ => false
  end.

(** An answer with a zero count and no [error] member: nothing found. *)
Definition nothing_found : json :=
  JObject [("jsonrpc", JString "2.0");
           ("result", JObject [("itemId", JInt 0); ("result", JList []);
                               ("resultCode", JInt 0); ("count", JInt 0)]);
           ("id", JInt 1)].

(** The answer to a successful create or delete. *)
Definition item_done : json :=
  JObject [("jsonrpc", JString "2.0");
           ("result", JObject [("itemId", JInt 12); ("result", JNull);
                               ("resultCode", JInt 0); ("count", JNull)]);
           ("id", JInt 1)].

(** ** Proof support *)

Ltac unfold_methods :=
  unfold run_op, AccountSearch, AccountViewpass, AccountCreate, AccountDelete,
    AccountView, CategorySearch, CategoryCreate, CategoryDelete, ClientSearch,
    ClientCreate, ClientDelete, TagCreate, TagSearch, TagDelete,
    UserGroupCreate, UserGroupSearch, UserGroupDelete, Backup.

Ltac unfold_monad :=
  unfold bind, self, rId_incr, requests_post, lift, always.

Lemma one_call_effect (ver : PyVersion) (upper : string -> string)
    (env : list Request -> HttpOutcome) (c : OpCall) (w : World) :
  exists data v,
    fst (run_op ver upper env c w) =
      {| client := {| API_KEY := API_KEY (client w);
                      API_URL := API_URL (client w);
                      API_ACC_TOKPWD := API_ACC_TOKPWD (client w);
                      rId := rId (client w) + 1 |};
         log := log w ++ [ {| url := API_URL (client w); body := data; verify := v |} ] |}
    /\ getitem data "id" = Returns (JInt (rId (client w)))
    /\ getitem data "jsonrpc" = Returns (JString "2.0").
Proof.
  destruct c; unfold_methods; unfold_monad; cbn;
    match goal with
    | |- context [env ?h] => destruct (env h)
    end; cbn; eexists; eexists; (split; [reflexivity | split; reflexivity]).
Qed.

Lemma py_gt0_number (ver : PyVersion) (v : json) :
  is_number v = true -> py_gt0 ver v = Returns (json_gt0 v).
Proof. destruct v; simpl; intros H; try discriminate; reflexivity. Qed.

Lemma py_gt0_positive (ver : PyVersion) (v : json) :
  json_gt0 v = true -> py_gt0 ver v = Returns true.
Proof.
  intros H. rewrite py_gt0_number.
  - now rewrite H.
  - destruct v; simpl in *; try discriminate; reflexivity.
Qed.

Lemma getitem_py_in (req : json) (k : string) (v : json) :
  getitem req k = Returns v -> py_in k req = Returns true.
Proof.
  destruct req; simpl; try discriminate.
  destruct (assoc k kv); [reflexivity | discriminate].
Qed.

(** ** The create and delete methods *)

(** On an answer that has a [result] with a numeric [itemId], a create method
    returns that [result] when [itemId] is positive and raises [AnsibleError]
    with the whole answer otherwise. *)
Lemma create_on_itemId (ver : PyVersion)
    (req r c : json) (w : World)
    (name categoryId clientId password login url tags notes : json)
    (private privateGroup userGroupId expireDate parentId description Global : json) :
  getitem req "result" = Returns r ->
  getitem r "itemId" = Returns c ->
  is_number c = true ->
  let good (prefix : string) :=
    if json_gt0 c then Returns r else Raises (AnsibleError prefix req) in
  snd (AccountCreate ver (always req) name categoryId clientId password login url
         tags notes private privateGroup userGroupId expireDate parentId w)
    = good "AccountCreate Error : "
  /\ snd (CategoryCreate ver (always req) name description w)
    = good "CategoryCreate Error : "
  /\ snd (ClientCreate ver (always req) name description Global w)
    = good "ClientCreate Error : "
  /\ snd (TagCreate ver (always req) name w) = good "TagCreate Error : "
  /\ snd (UserGroupCreate ver (always req) name description w)
    = good "UserGroupCreate Error : ".
Proof.
  intros Hr Hc Hn good. subst good.
  unfold_methods; unfold_monad; cbn.
  rewrite Hr; cbn. rewrite Hc; cbn. rewrite (py_gt0_number ver c Hn); cbn.
  destruct (json_gt0 c); repeat split; reflexivity.
Qed.

(** On an answer that has a [result] with a [resultCode], a delete method
    returns that [result] when [resultCode == 0] and raises [AnsibleError]
    with the whole answer otherwise. *)
Lemma delete_on_resultCode (req r c : json) (w : World)
    (uId : json) :
  getitem req "result" = Returns r ->
  getitem r "resultCode" = Returns c ->
  let good (prefix : string) :=
    if py_eq0 c then Returns r else Raises (AnsibleError prefix req) in
  snd (AccountDelete (always req) uId w) = good "AccountDelete Error : "
  /\ snd (CategoryDelete (always req) uId w) = good "CategoryDelete Error : "
  /\ snd (ClientDelete (always req) uId w) = good "ClientDelete Error : "
  /\ snd (TagDelete (always req) uId w) = good "TagDelete Error : "
  /\ snd (UserGroupDelete (always req) uId w) = good "UserGroupDelete Error : ".
Proof.
  intros Hr Hc good. subst good.
  unfold_methods; unfold_monad; cbn.
  rewrite Hr; cbn. rewrite Hc; cbn.
  destruct (py_eq0 c); repeat split; reflexivity.
Qed.

(** C4.  A create method does not turn every answer without a positive
    [result.itemId] into an [AnsibleError] carrying the answer: on the error
    envelope the server sends for a failed call (it has no [result] member)
    each of the five create methods ends with [KeyError('result')], under
    either interpreter, whatever the arguments and the state of the client. *)
Theorem C4_create_on_error_envelope :
  forall (ver : PyVersion) (w : World)
    (name categoryId clientId password login url tags notes : json)
    (private privateGroup userGroupId expireDate parentId description Global : json),
  snd (AccountCreate ver (always error_envelope) name categoryId clientId password
         login url tags notes private privateGroup userGroupId expireDate parentId w)
    = Raises (KeyError (JString "result"))
  /\ snd (CategoryCreate ver (always error_envelope) name description w)
    = Raises (KeyError (JString "result"))
  /\ snd (ClientCreate ver (always error_envelope) name description Global w)
    = Raises (KeyError (JString "result"))
  /\ snd (TagCreate ver (always error_envelope) name w)
    = Raises (KeyError (JString "result"))
  /\ snd (UserGroupCreate ver (always error_envelope) name description w)
    = Raises (KeyError (JString "result")).
Proof. intros. repeat split; reflexivity. Qed.

(** C5.  A delete method does not turn every answer without a zero
    [result.resultCode] into an [AnsibleError] carrying the answer: on the
    error envelope the server sends for a failed call each of the five delete
    methods ends with [KeyError('result')]. *)
Theorem C5_delete_on_error_envelope :
  forall (w : World) (Id : json),
  snd (AccountDelete (always error_envelope) Id w)
    = Raises (KeyError (JString "result"))
  /\ snd (CategoryDelete (always error_envelope) Id w)
    = Raises (KeyError (JString "result"))
  /\ snd (ClientDelete (always error_envelope) Id w)
    = Raises (KeyError (JString "result"))
  /\ snd (TagDelete (always error_envelope) Id w)
    = Raises (KeyError (JString "result"))
  /\ snd (UserGroupDelete (always error_envelope) Id w)
    = Raises (KeyError (JString "result")).
Proof. intros. repeat split; reflexivity. Qed.

(** [Backup], the one method that looks for [result] before it reads it,
    raises [AnsibleError] with the whole answer on the same envelope. *)
Lemma Backup_on_error_envelope (w : World) :
  snd (Backup (always error_envelope) w)
    = Raises (AnsibleError "Backup Error : " error_envelope).
Proof. reflexivity. Qed.

(** ** The state of the instance and the requests made *)

(** C6.  Whatever the method, its arguments and the behaviour of the remote
    side, a call leaves [API_KEY], [API_URL] and [API_ACC_TOKPWD] as they
    were, adds one to [rId], and the request it sends has the former [rId] as
    its [id]; so after the calls of a list made on a fresh instance, [rId] is
    the number of calls plus one. *)
Theorem C6_only_rId_changes :
  forall (ver : PyVersion) (upper : string -> string)
    (env : list Request -> HttpOutcome),
  (forall (c : OpCall) (w : World),
     let w' := fst (run_op ver upper env c w) in
     API_KEY (client w') = API_KEY (client w)
     /\ API_URL (client w') = API_URL (client w)
     /\ API_ACC_TOKPWD (client w') = API_ACC_TOKPWD (client w)
     /\ rId (client w') = rId (client w) + 1
     /\ exists rq, log w' = (log w ++ [rq])%list
          /\ getitem (body rq) "id" = Returns (JInt (rId (client w))))
  /\ (forall (cs : list OpCall) (key : json) (url : string) (tokpwd : json),
        rId (client (run_ops ver upper env cs (fresh key url tokpwd)))
          = Z.of_nat (List.length cs) + 1).
Proof.
  intros ver upper env.
  assert (Hone : forall c w,
             rId (client (fst (run_op ver upper env c w))) = rId (client w) + 1).
  { intros c w. destruct (one_call_effect ver upper env c w) as (d & v & E & _).
    rewrite E. reflexivity. }
  split.
  - intros c w w'. subst w'.
    destruct (one_call_effect ver upper env c w) as (d & v & E & Hid & _).
    rewrite E. cbn. repeat split.
    eexists. split; [reflexivity | exact Hid].
  - intros cs key url tokpwd.
    assert (Hgen : forall w, rId (client (run_ops ver upper env cs w))
                             = Z.of_nat (List.length cs) + rId (client w)).
    { induction cs as [| c rest IH]; intros w.
      - reflexivity.
      - cbn [run_ops List.length]. rewrite IH, Hone. lia. }
    rewrite Hgen. reflexivity.
Qed.

(** C7.  Whatever the method, its arguments and the answer (a document of any
    shape, a body that is not JSON, a failure of the transport), a call
    issues exactly one [requests.post], to the [API_URL] of the instance,
    with a JSON-RPC 2.0 body: the log of requests grows by that one entry. *)
Theorem C7_exactly_one_request :
  forall (ver : PyVersion) (upper : string -> string)
    (env : list Request -> HttpOutcome) (c : OpCall) (w : World),
  exists rq,
    log (fst (run_op ver upper env c w)) = (log w ++ [rq])%list
    /\ url rq = API_URL (client w)
    /\ getitem (body rq) "jsonrpc" = Returns (JString "2.0").
Proof.
  intros ver upper env c w.
  destruct (one_call_effect ver upper env c w) as (d & v & E & _ & Hrpc).
  rewrite E. cbn. eexists. split; [reflexivity |]. split; [reflexivity | exact Hrpc].
Qed.

(** ** The search methods *)

Lemma search_loop_no_hit (test : json -> outcome bool) (hit : outcome json)
    (l : list json) :
  Forall (fun e => test e = Returns false) l ->
  search_loop test hit l = Returns JNull.
Proof.
  induction 1 as [| e rest He _ IH]; cbn.
  - reflexivity.
  - rewrite He; cbn. exact IH.
Qed.

Lemma search_loop_first_hit (test : json -> outcome bool) (hit : outcome json)
    (pre : list json) (e : json) (post : list json) :
  Forall (fun x => exists b, test x = Returns b) pre ->
  test e = Returns true ->
  search_loop test hit (pre ++ e :: post) = hit.
Proof.
  intros Hpre He. induction Hpre as [| x rest [b Hx] _ IH]; cbn.
  - rewrite He. reflexivity.
  - rewrite Hx; cbn. destruct b; [reflexivity | exact IH].
Qed.

Lemma search_loop_tests (test : json -> outcome bool) (hit : outcome json)
    (l : list json) (bs : list bool) :
  Forall2 (fun e b => test e = Returns b) l bs ->
  search_loop test hit l = if existsb (fun b => b) bs then hit else Returns JNull.
Proof.
  induction 1 as [| e b rest bs' He _ IH]; cbn.
  - reflexivity.
  - rewrite He; cbn. destruct b; [reflexivity | exact IH].
Qed.

(** Once the answer has a positive [result.count] and a list under
    [result.result], every search method is its loop over that list. *)
Lemma search_is_loop (ver : PyVersion) (upper : string -> string)
    (req r c : json) (l : list json) (w : World) (text : string)
    (count categoryId clientId : json) :
  getitem req "result" = Returns r ->
  getitem r "count" = Returns c ->
  json_gt0 c = true ->
  getitem r "result" = Returns (JList l) ->
  snd (AccountSearch ver (always req) text count categoryId clientId JNull w)
    = search_loop (name_is text) (getitem0 (JList l)) l
  /\ snd (CategorySearch ver (always req) text count w)
    = search_loop (name_is text) (getitem0 (JList l)) l
  /\ snd (ClientSearch ver upper (always req) text count w)
    = search_loop (name_is_upper upper text) (getitem0 (JList l)) l
  /\ snd (TagSearch ver upper (always req) text count w)
    = search_loop (name_is_upper upper text) (getitem0 (JList l)) l
  /\ snd (UserGroupSearch ver upper (always req) text count w)
    = search_loop (name_is_upper upper text) (getitem0 (JList l)) l.
Proof.
  intros Hr Hc Hpos Hl.
  unfold_methods; unfold_monad; cbn.
  rewrite Hr; cbn. rewrite Hc; cbn. rewrite (py_gt0_positive ver c Hpos); cbn.
  rewrite Hl; cbn. repeat split; reflexivity.
Qed.

(** C1, as stated, fails.  The answer [count_and_error] has an [error]
    member and [AccountSearch] returns [None] on it; the answer
    [zero_and_error] has one too and [CategorySearch] raises an
    [AnsibleError] built from the value of [error] alone, not from the
    answer. *)
Lemma C1_counterexample :
  py_in "error" count_and_error = Returns true
  /\ ~ surfaces_raw
        (snd (AccountSearch Py2 (always count_and_error) "db" JNull JNull JNull JNull
                (fresh (JString "k") "https://vault/api.php" (JString "p"))))
        count_and_error
  /\ py_in "error" zero_and_error = Returns true
  /\ ~ surfaces_raw
        (snd (CategorySearch Py2 (always zero_and_error) "db" JNull
                (fresh (JString "k") "https://vault/api.php" (JString "p"))))
        zero_and_error.
Proof.
  split; [reflexivity |]. split.
  - intros [msg H]. cbv in H. discriminate H.
  - split; [reflexivity |]. intros [msg H]. cbv in H. discriminate H.
Qed.

(** C1, amended.  When the answer has a [result.count] that [count > 0]
    finds not positive and has an [error] member, every search method raises
    [AnsibleError]: [AccountSearch] builds it from the whole answer, the four
    other searches from the value of the [error] member. *)
Theorem C1_error_member_after_count :
  forall (ver : PyVersion) (upper : string -> string) (w : World) (text : string)
    (count categoryId clientId matchAll req r c err : json),
  getitem req "result" = Returns r ->
  getitem r "count" = Returns c ->
  py_gt0 ver c = Returns false ->
  getitem req "error" = Returns err ->
  snd (AccountSearch ver (always req) text count categoryId clientId matchAll w)
    = Raises (AnsibleError "AccountSearch Error : " req)
  /\ snd (CategorySearch ver (always req) text count w)
    = Raises (AnsibleError "CategorySearch Error : " err)
  /\ snd (ClientSearch ver upper (always req) text count w)
    = Raises (AnsibleError "ClientSearch Error : " err)
  /\ snd (TagSearch ver upper (always req) text count w)
    = Raises (AnsibleError "TagSearch Error : " err)
  /\ snd (UserGroupSearch ver upper (always req) text count w)
    = Raises (AnsibleError "UserGroupSearch Error : " err).
Proof.
  intros ver upper w text count categoryId clientId matchAll req r c err
    Hr Hc Hgt Herr.
  unfold_methods; unfold_monad; cbn.
  rewrite Hr; cbn. rewrite Hc; cbn. rewrite Hgt; cbn.
  rewrite (getitem_py_in req "error" err Herr); cbn.
  rewrite Herr; cbn. repeat split; reflexivity.
Qed.

(** The amended C1 at [zero_and_error]. *)
Lemma C1_error_member_after_count_witness :
  snd (AccountSearch Py2 (always zero_and_error) "db" JNull JNull JNull JNull
         (fresh (JString "k") "https://vault/api.php" (JString "p")))
    = Raises (AnsibleError "AccountSearch Error : " zero_and_error)
  /\ snd (TagSearch Py2 ascii_upper (always zero_and_error) "db" JNull
            (fresh (JString "k") "https://vault/api.php" (JString "p")))
    = Raises (AnsibleError "TagSearch Error : "
                (JObject [("message", JString "denied")])).
Proof.
  destruct (C1_error_member_after_count Py2 ascii_upper
              (fresh (JString "k") "https://vault/api.php" (JString "p")) "db"
              JNull JNull JNull JNull zero_and_error
              (JObject [("count", JInt 0); ("result", JList [])]) (JInt 0)
              (JObject [("message", JString "denied")])
              eq_refl eq_refl eq_refl eq_refl) as (Ha & _ & _ & Ht & _).
  split; [exact Ha | exact Ht].
Defined.

(** C8.  [AccountSearch] with [matchAll = None], on an answer whose
    [result.count] is a positive number and whose [result.result] is a list
    of named entries one of which has a name equal to the search text
    (written [pre ++ e :: post], [e] being such an entry and the entries of
    [pre] having a name), returns the entry at index 0 of the list: [e]
    itself when nothing precedes it, the head of [pre] otherwise. *)
Theorem C8_AccountSearch_returns_index_0 :
  forall (ver : PyVersion) (w : World) (text : string)
    (count categoryId clientId req r c : json) (pre : list json) (e : json)
    (post : list json),
  getitem req "result" = Returns r ->
  getitem r "count" = Returns c ->
  json_gt0 c = true ->
  getitem r "result" = Returns (JList (pre ++ e :: post)) ->
  Forall has_name pre ->
  getitem e "name" = Returns (JString text) ->
  snd (AccountSearch ver (always req) text count categoryId clientId JNull w)
    = Returns (hd e pre)
  /\ nth_error (pre ++ e :: post) 0 = Some (hd e pre).
Proof.
  intros ver w text count categoryId clientId req r c pre e post
    Hr Hc Hpos Hl Hpre He.
  destruct (search_is_loop ver ascii_upper req r c (pre ++ e :: post) w text
              count categoryId clientId Hr Hc Hpos Hl) as (Ha & _).
  rewrite Ha. rewrite search_loop_first_hit.
  - destruct pre; split; reflexivity.
  - eapply Forall_impl; [| exact Hpre].
    intros x [n Hn]. unfold name_is. rewrite Hn; cbn. eauto.
  - unfold name_is. rewrite He; cbn. unfold py_eq_text, is_text.
    now rewrite String.eqb_refl.
Qed.

(** C8 at [two_accounts]: the search for [db] returns the account at index 0, named [db-old]. *)
Lemma C8_AccountSearch_returns_index_0_witness :
  snd (AccountSearch Py2 (always two_accounts) "db" JNull JNull JNull JNull
         (fresh (JString "k") "https://vault/api.php" (JString "p")))
    = Returns (JObject [("id", JInt 1); ("name", JString "db-old")]).
Proof.
  refine (proj1 (C8_AccountSearch_returns_index_0 Py2
           (fresh (JString "k") "https://vault/api.php" (JString "p")) "db"
           JNull JNull JNull two_accounts
           (JObject [("count", JInt 2);
                     ("result", JList [JObject [("id", JInt 1); ("name", JString "db-old")];
                                       JObject [("id", JInt 2); ("name", JString "db")]])])
           (JInt 2)
           [JObject [("id", JInt 1); ("name", JString "db-old")]]
           (JObject [("id", JInt 2); ("name", JString "db")]) []
           eq_refl eq_refl eq_refl eq_refl _ eq_refl)).
  constructor; [exists (JString "db-old"); reflexivity | constructor].
Defined.

Lemma name_is_false (text : string) (e : json) :
  name_differs text e -> name_is text e = Returns false.
Proof.
  intros (n & Hn & Hne). unfold name_is. rewrite Hn; cbn.
  unfold py_eq_text, is_text. destruct n; try reflexivity.
  destruct (String.eqb_spec s text) as [-> | _]; [now elim Hne | reflexivity].
Qed.

Lemma name_is_upper_false (upper : string -> string) (text : string) (e : json) :
  name_differs_upper upper text e -> name_is_upper upper text e = Returns false.
Proof.
  intros (n & Hn & Hne). unfold name_is_upper. rewrite Hn; cbn.
  destruct (String.eqb_spec (upper n) (upper text)) as [E | _];
    [now elim Hne | reflexivity].
Qed.

(** C10.  On an answer whose [result.count] is a positive number and whose
    [result.result] is a list of named entries, none of the names matching
    the search text, a search method returns [None] and raises nothing,
    whatever else the answer holds, an [error] member included.  For
    [AccountSearch] (with [matchAll = None]) and [CategorySearch] a name
    matches when it equals the text; for [ClientSearch], [TagSearch] and
    [UserGroupSearch] when the two are equal once upper-cased. *)
Theorem C10_no_match_returns_None :
  forall (ver : PyVersion) (upper : string -> string) (w : World) (text : string)
    (count categoryId clientId req r c : json) (l : list json),
  getitem req "result" = Returns r ->
  getitem r "count" = Returns c ->
  json_gt0 c = true ->
  getitem r "result" = Returns (JList l) ->
  (Forall (name_differs text) l ->
     snd (AccountSearch ver (always req) text count categoryId clientId JNull w)
       = Returns JNull
     /\ snd (CategorySearch ver (always req) text count w) = Returns JNull)
  /\ (Forall (name_differs_upper upper text) l ->
        snd (ClientSearch ver upper (always req) text count w) = Returns JNull
        /\ snd (TagSearch ver upper (always req) text count w) = Returns JNull
        /\ snd (UserGroupSearch ver upper (always req) text count w) = Returns JNull).
Proof.
  intros ver upper w text count categoryId clientId req r c l Hr Hc Hpos Hl.
  destruct (search_is_loop ver upper req r c l w text count categoryId clientId
              Hr Hc Hpos Hl) as (Ha & Hcat & Hcli & Htag & Hug).
  split.
  - intros Hno.
    assert (Hloop : search_loop (name_is text) (getitem0 (JList l)) l = Returns JNull).
    { apply search_loop_no_hit. eapply Forall_impl; [| exact Hno].
      intros e. apply name_is_false. }
    rewrite Ha, Hcat, Hloop. split; reflexivity.
  - intros Hno.
    assert (Hloop : search_loop (name_is_upper upper text) (getitem0 (JList l)) l
                    = Returns JNull).
    { apply search_loop_no_hit. eapply Forall_impl; [| exact Hno].
      intros e. apply name_is_upper_false. }
    rewrite Hcli, Htag, Hug, Hloop. repeat split; reflexivity.
Qed.

(** C10 at [count_and_error], an answer that also has an [error] member. *)
Lemma C10_no_match_returns_None_witness :
  py_in "error" count_and_error = Returns true
  /\ snd (AccountSearch Py2 (always count_and_error) "db" JNull JNull JNull JNull
            (fresh (JString "k") "https://vault/api.php" (JString "p")))
     = Returns JNull
  /\ snd (UserGroupSearch Py2 ascii_upper (always count_and_error) "db" JNull
            (fresh (JString "k") "https://vault/api.php" (JString "p")))
     = Returns JNull.
Proof.
  destruct (C10_no_match_returns_None Py2 ascii_upper
              (fresh (JString "k") "https://vault/api.php" (JString "p")) "db"
              JNull JNull JNull count_and_error
              (JObject [("count", JInt 1);
                        ("result", JList [JObject [("name", JString "web")]])])
              (JInt 1) [JObject [("name", JString "web")]]
              eq_refl eq_refl eq_refl eq_refl) as [Hexact Hupper].
  split; [reflexivity |]. split.
  - apply Hexact. constructor; [| constructor].
    exists (JString "web"). split; [reflexivity | discriminate].
  - apply Hupper. constructor; [| constructor].
    exists "web". split; [reflexivity | discriminate].
Defined.

(** ** Exact and upper-cased comparison of names *)

Lemma name_is_text (text : string) (e : json) (n : string) :
  getitem e "name" = Returns (JString n) ->
  name_is text e = Returns (String.eqb n text).
Proof. intros Hn. unfold name_is. rewrite Hn. reflexivity. Qed.

Lemma name_is_upper_text (upper : string -> string) (text : string) (e : json)
    (n : string) :
  getitem e "name" = Returns (JString n) ->
  name_is_upper upper text e = Returns (String.eqb (upper n) (upper text)).
Proof. intros Hn. unfold name_is_upper. rewrite Hn. reflexivity. Qed.

Lemma existsb_map_id {A : Type} (f : A -> bool) (l : list A) :
  existsb (fun b => b) (map f l) = existsb f l.
Proof. induction l as [| a rest IH]; cbn; [reflexivity | now rewrite IH]. Qed.

Lemma existsb_nonempty {A : Type} (f : A -> bool) (l : list A) :
  existsb f l = true -> l <> [].
Proof. destruct l; cbn; [discriminate | intros _; discriminate]. Qed.

(** C9.  On an answer whose [result.count] is a positive number and whose
    [result.result] lists entries named by the texts [names], [ClientSearch],
    [TagSearch] and [UserGroupSearch] find a match exactly when some name
    equals the search text once both are upper-cased, while [AccountSearch]
    (with [matchAll = None]) and [CategorySearch] find one exactly when some
    name equals the search text as it is; a search that finds a match returns
    the entry at index 0, the others [None].  And there is a search text that
    differs from the stored name in letter case only, for which the first
    three return the entry and the last two return [None]. *)
Theorem C9_upper_cased_versus_exact :
  (forall (ver : PyVersion) (upper : string -> string) (w : World) (text : string)
     (count categoryId clientId req r c : json) (l : list json)
     (names : list string),
     getitem req "result" = Returns r ->
     getitem r "count" = Returns c ->
     json_gt0 c = true ->
     getitem r "result" = Returns (JList l) ->
     Forall2 (fun e n => getitem e "name" = Returns (JString n)) l names ->
     let found (b : bool) : outcome json :=
       Returns (if b then hd JNull l else JNull) in
     let same_upper := existsb (fun n => String.eqb (upper n) (upper text)) names in
     let same := existsb (fun n => String.eqb n text) names in
     snd (ClientSearch ver upper (always req) text count w) = found same_upper
     /\ snd (TagSearch ver upper (always req) text count w) = found same_upper
     /\ snd (UserGroupSearch ver upper (always req) text count w) = found same_upper
     /\ snd (AccountSearch ver (always req) text count categoryId clientId JNull w)
        = found same
     /\ snd (CategorySearch ver (always req) text count w) = found same)
  /\ (exists (text stored : string) (entry : json),
        text <> stored
        /\ ascii_upper text = ascii_upper stored
        /\ getitem entry "name" = Returns (JString stored)
        /\ forall (ver : PyVersion) (w : World) (count categoryId clientId : json),
            snd (ClientSearch ver ascii_upper (always (one_entry stored)) text count w)
              = Returns entry
            /\ snd (TagSearch ver ascii_upper (always (one_entry stored)) text count w)
              = Returns entry
            /\ snd (UserGroupSearch ver ascii_upper (always (one_entry stored)) text
                      count w)
              = Returns entry
            /\ snd (AccountSearch ver (always (one_entry stored)) text count
                      categoryId clientId JNull w)
              = Returns JNull
            /\ snd (CategorySearch ver (always (one_entry stored)) text count w)
              = Returns JNull).
Proof.
  split.
  - intros ver upper w text count categoryId clientId req r c l names
      Hr Hc Hpos Hl Hnames found same_upper same.
    destruct (search_is_loop ver upper req r c l w text count categoryId clientId
                Hr Hc Hpos Hl) as (Ha & Hcat & Hcli & Htag & Hug).
    assert (Hlen : l = [] -> names = []).
    { intros ->. now inversion Hnames. }
    assert (Hhit : forall b : bool,
               (b = true -> names <> []) ->
               (if b then getitem0 (JList l) else Returns JNull) = found b).
    { intros [|] Hb; [| reflexivity].
      destruct l as [| e0 rest]; [| reflexivity].
      now elim (Hb eq_refl (Hlen eq_refl)). }
    assert (Hup : search_loop (name_is_upper upper text) (getitem0 (JList l)) l
                  = found same_upper).
    { rewrite (search_loop_tests _ _ l
                 (map (fun n => String.eqb (upper n) (upper text)) names)).
      - rewrite existsb_map_id. apply Hhit. apply existsb_nonempty.
      - clear - Hnames. induction Hnames as [| e n rest ns He _ IH]; cbn;
          constructor; [now apply name_is_upper_text | exact IH]. }
    assert (Hex : search_loop (name_is text) (getitem0 (JList l)) l = found same).
    { rewrite (search_loop_tests _ _ l (map (fun n => String.eqb n text) names)).
      - rewrite existsb_map_id. apply Hhit. apply existsb_nonempty.
      - clear - Hnames. induction Hnames as [| e n rest ns He _ IH]; cbn;
          constructor; [now apply name_is_text | exact IH]. }
    rewrite Ha, Hcat, Hcli, Htag, Hug, Hup, Hex. repeat split; reflexivity.
  - exists "mysql", "MySQL", (JObject [("id", JInt 5); ("name", JString "MySQL")]).
    split; [discriminate |]. split; [reflexivity |]. split; [reflexivity |].
    intros ver w count categoryId clientId. repeat split; reflexivity.
Qed.

(** C9 at the stored name [MySQL] searched as [mysql]. *)
Lemma C9_upper_cased_versus_exact_witness :
  snd (ClientSearch Py2 ascii_upper (always (one_entry "MySQL")) "mysql" JNull
         (fresh (JString "k") "https://vault/api.php" (JString "p")))
    = Returns (JObject [("id", JInt 5); ("name", JString "MySQL")])
  /\ snd (CategorySearch Py2 (always (one_entry "MySQL")) "mysql" JNull
            (fresh (JString "k") "https://vault/api.php" (JString "p")))
    = Returns JNull.
Proof.
  assert (Hnames : Forall2
            (fun e n => getitem e "name" = Returns (JString n))
            [JObject [("id", JInt 5); ("name", JString "MySQL")]] ["MySQL"]).
  { constructor; [reflexivity | constructor]. }
  destruct (proj1 C9_upper_cased_versus_exact Py2 ascii_upper
              (fresh (JString "k") "https://vault/api.php" (JString "p")) "mysql"
              JNull JNull JNull (one_entry "MySQL")
              (JObject [("count", JInt 1);
                        ("result", JList [JObject [("id", JInt 5);
                                                   ("name", JString "MySQL")]])])
              (JInt 1)
              [JObject [("id", JInt 5); ("name", JString "MySQL")]] ["MySQL"]
              eq_refl eq_refl eq_refl eq_refl Hnames)
    as (Hcli & _ & _ & _ & Hcat).
  split; [exact Hcli | exact Hcat].
Defined.

(** ** Arguments sent and values returned *)

Lemma search_loop_returns (test : json -> outcome bool) (hit : outcome json)
    (l : list json) (v : json) :
  search_loop test hit l = Returns v -> v = JNull \/ hit = Returns v.
Proof.
  induction l as [| e rest IH]; cbn; intros H.
  - left. now inversion H.
  - destruct (test e) as [[|] |]; cbn in H;
      [right; exact H | exact (IH H) | discriminate H].
Qed.

Ltac break_chain H :=
  repeat match type of H with
    | obind ?o _ = _ =>
        let E := fresh "E" in destruct o eqn:E; cbn in H; [| discriminate H]
    | (if ?b then _ else _) = _ => destruct b; cbn in H
    | match ?x with _ => _ end = _ => destruct x; cbn in H
    | Raises _ = Returns _ => discriminate H
    | search_loop _ _ _ = Returns _ =>
        apply search_loop_returns in H; destruct H as [H | H]; cbn in H
    end.

Lemma loops_over_names (upper : string -> string) (text : string)
    (hit : outcome json) (l : list json) (names : list string) :
  Forall2 (fun e n => getitem e "name" = Returns (JString n)) l names ->
  search_loop (name_is text) hit l
    = (if existsb (fun n => String.eqb n text) names then hit else Returns JNull)
  /\ search_loop (name_is_upper upper text) hit l
     = (if existsb (fun n => String.eqb (upper n) (upper text)) names then hit
        else Returns JNull).
Proof.
  intros Hnames. split.
  - rewrite (search_loop_tests _ _ l (map (fun n => String.eqb n text) names)).
    + now rewrite existsb_map_id.
    + induction Hnames as [| e n rest ns He _ IH]; cbn; constructor;
        [now apply name_is_text | exact IH].
  - rewrite (search_loop_tests _ _ l
               (map (fun n => String.eqb (upper n) (upper text)) names)).
    + now rewrite existsb_map_id.
    + induction Hnames as [| e n rest ns He _ IH]; cbn; constructor;
        [now apply name_is_upper_text | exact IH].
Qed.

Lemma request_sent (ver : PyVersion) (upper : string -> string)
    (env : list Request -> HttpOutcome) (c : OpCall) (w : World) :
  exists rq,
    log (fst (run_op ver upper env c w)) = (log w ++ [rq])%list
    /\ url rq = API_URL (client w)
    /\ body rq = JObject [("jsonrpc", JString "2.0");
                          ("method", JString (spec_method c));
                          ("params", JObject (spec_params (client w) c));
                          ("id", JInt (rId (client w)))].
Proof.
  destruct c; unfold_methods; unfold_monad; cbn;
    match goal with
    | |- context [env ?h] => destruct (env h)
    end; cbn; eexists; repeat split; reflexivity.
Qed.

Lemma spec_params_values (s : SyspassClient) (c : OpCall) :
  incl (spec_remote_args c) (map snd (spec_params s c))
  /\ incl (map snd (spec_params s c))
       (API_KEY s :: API_ACC_TOKPWD s :: spec_remote_args c).
Proof. destruct c; split; intros x Hx; cbn in *; tauto. Qed.

Lemma member_passes_inv (test : json -> bool) (r : json) (m : string) :
  member_passes test r m = true ->
  exists v, getitem r m = Returns v /\ test v = true.
Proof.
  unfold member_passes. destruct (getitem r m) as [v |]; [| discriminate].
  intros H. now exists v.
Qed.

Lemma outcome_on_success (ver : PyVersion) (upper : string -> string)
    (c : OpCall) (w : World) (req r : json) :
  getitem req "result" = Returns r ->
  spec_success c r = true ->
  is_name_search c = false ->
  snd (run_op ver upper (always req) c w) = follow (spec_returned_path c) req.
Proof.
  intros Hr Hs Hn.
  destruct c; cbn in Hn; try discriminate Hn; cbn in Hs;
    try (apply member_passes_inv in Hs; destruct Hs as (v & Hv & Hpos));
    unfold_methods; unfold_monad; cbn; rewrite ?Hr; cbn;
    rewrite ?(getitem_py_in req "result" r Hr); cbn;
    try (rewrite Hv; cbn);
    try (rewrite (py_gt0_positive ver v Hpos); cbn);
    try (rewrite Hpos; cbn);
    try (destruct matchAll; try discriminate Hn; cbn; rewrite ?Hr; cbn);
    repeat match goal with
      | |- context [getitem ?a ?k] => destruct (getitem a k); cbn
      end;
    reflexivity.
Qed.

Lemma name_search_on_success (ver : PyVersion) (upper : string -> string)
    (c : OpCall) (w : World) (req r : json) (l : list json)
    (names : list string) :
  getitem req "result" = Returns r ->
  spec_success c r = true ->
  is_name_search c = true ->
  getitem r "result" = Returns (JList l) ->
  Forall2 (fun e n => getitem e "name" = Returns (JString n)) l names ->
  snd (run_op ver upper (always req) c w)
    = if spec_name_match upper c names then follow (spec_returned_path c) req
      else Returns JNull.
Proof.
  intros Hr Hs Hn Hl Hnames.
  assert (Hpath : follow [Member "result"; Member "result"; Index0] req
                  = getitem0 (JList l)).
  { cbn. rewrite Hr; cbn. rewrite Hl; cbn. destruct l; reflexivity. }
  destruct c; cbn in Hn; try discriminate Hn; cbn in Hs;
    apply member_passes_inv in Hs; destruct Hs as (v & Hv & Hpos);
    try (destruct matchAll; try discriminate Hn);
    cbn [spec_returned_path spec_name_match run_op]; rewrite Hpath.
  - destruct (search_is_loop ver upper req r v l w text count categoryId clientId
                Hr Hv Hpos Hl) as (H & _).
    rewrite H. apply (loops_over_names upper text _ l names Hnames).
  - destruct (search_is_loop ver upper req r v l w text count JNull JNull
                Hr Hv Hpos Hl) as (_ & H & _).
    rewrite H. apply (loops_over_names upper text _ l names Hnames).
  - destruct (search_is_loop ver upper req r v l w text count JNull JNull
                Hr Hv Hpos Hl) as (_ & _ & H & _).
    rewrite H. apply (loops_over_names upper text _ l names Hnames).
  - destruct (search_is_loop ver upper req r v l w text count JNull JNull
                Hr Hv Hpos Hl) as (_ & _ & _ & H & _).
    rewrite H. apply (loops_over_names upper text _ l names Hnames).
  - destruct (search_is_loop ver upper req r v l w text count JNull JNull
                Hr Hv Hpos Hl) as (_ & _ & _ & _ & H).
    rewrite H. apply (loops_over_names upper text _ l names Hnames).
Qed.

Lemma returned_value (ver : PyVersion) (upper : string -> string) (c : OpCall)
    (w : World) (req v : json) :
  snd (run_op ver upper (always req) c w) = Returns v ->
  follow (spec_returned_path c) req = Returns v
  \/ (is_search c = true /\ v = JNull).
Proof.
  destruct c; unfold_methods; unfold_monad; cbn; intros H;
    break_chain H; try (injection H as H); subst; cbn;
    repeat match goal with
      | E : ?o = Returns _ |- context [?o] => rewrite E; cbn
      end;
    first [ right; split; reflexivity | left; reflexivity ].
Qed.

(** C2, as stated, fails.  On [account_password] the call of
    [AccountViewpass] succeeds and returns the text under [password], which
    is neither the [result] member of the answer nor the [result] inside
    it. *)
Lemma C2_counterexample :
  snd (AccountViewpass Py2 (always account_password) (JInt 7)
         (fresh (JString "k") "https://vault/api.php" (JString "p")))
    = Returns (JString "s3cret")
  /\ ~ returns_result_unchanged
         (snd (AccountViewpass Py2 (always account_password) (JInt 7)
                 (fresh (JString "k") "https://vault/api.php" (JString "p"))))
         account_password
  /\ follow [Member "result"; Member "result"] account_password
       <> Returns (JString "s3cret").
Proof.
  split; [reflexivity |]. split.
  - intros (r & Hr & Ho). cbv in Hr, Ho. rewrite <- Hr in Ho. discriminate Ho.
  - cbv. discriminate.
Qed.

(** C2, amended.  Every call sends one request, to the [API_URL] of the
    instance, whose body is the JSON-RPC 2.0 call of the remote method the
    method names, with the current [rId] as [id] and with [params] made of
    exactly these members: [authToken], the [API_KEY] of the instance;
    [tokenPass], its [API_ACC_TOKPWD], for [AccountViewpass], [AccountCreate]
    and [AccountDelete] and for no other method; and each argument for the
    remote method, unchanged, under the name the method gives it ([matchAll]
    of [AccountSearch] is not sent).  On every successful answer (a [result]
    whose [count] is a number greater than zero for the searches and the
    views, whose [itemId] is one for the creates, whose [resultCode] equals
    zero for the deletes, any [result] for [Backup]) the outcome of the call
    is what reading a place of the answer fixed by the method gives: [result]
    for the create and delete methods and [Backup]; [result.result] for
    [AccountView] and for [AccountSearch] with a [matchAll];
    [result.result.password] for [AccountViewpass]; and, for a search by name
    over entries named by texts, [result.result[0]] when a name matches and
    [None] when none does.  Whenever a call returns, the value is that part
    of the answer, unchanged, or [None] for a search. *)
Theorem C2_arguments_sent_and_part_returned :
  forall (ver : PyVersion) (upper : string -> string) (c : OpCall) (w : World),
  (forall env : list Request -> HttpOutcome,
     exists rq,
       log (fst (run_op ver upper env c w)) = (log w ++ [rq])%list
       /\ url rq = API_URL (client w)
       /\ body rq = JObject [("jsonrpc", JString "2.0");
                             ("method", JString (spec_method c));
                             ("params", JObject (spec_params (client w) c));
                             ("id", JInt (rId (client w)))])
  /\ incl (spec_remote_args c) (map snd (spec_params (client w) c))
  /\ incl (map snd (spec_params (client w) c))
       (API_KEY (client w) :: API_ACC_TOKPWD (client w) :: spec_remote_args c)
  /\ (forall req r : json,
        getitem req "result" = Returns r ->
        spec_success c r = true ->
        (is_name_search c = false ->
           snd (run_op ver upper (always req) c w)
             = follow (spec_returned_path c) req)
        /\ (is_name_search c = true ->
              forall (l : list json) (names : list string),
                getitem r "result" = Returns (JList l) ->
                Forall2 (fun e n => getitem e "name" = Returns (JString n)) l names ->
                snd (run_op ver upper (always req) c w)
                  = if spec_name_match upper c names
                    then follow (spec_returned_path c) req
                    else Returns JNull))
  /\ (forall req v : json,
        snd (run_op ver upper (always req) c w) = Returns v ->
        follow (spec_returned_path c) req = Returns v
        \/ (is_search c = true /\ v = JNull)).
Proof.
  intros ver upper c w. split; [| split; [| split; [| split]]].
  - intros env. apply request_sent.
  - apply spec_params_values.
  - apply spec_params_values.
  - intros req r Hr Hs. split.
    + intros Hn. now apply outcome_on_success with (r := r).
    + intros Hn l names Hl Hnames. now apply name_search_on_success with (r := r) (l := l).
  - intros req v. apply returned_value.
Qed.

(** The amended C2 at [AccountViewpass] on [account_password], a successful
    answer. *)
Lemma C2_arguments_sent_and_part_returned_witness :
  snd (run_op Py2 ascii_upper (always account_password) (CallAccountViewpass (JInt 7))
         (fresh (JString "k") "https://vault/api.php" (JString "p")))
    = Returns (JString "s3cret").
Proof.
  exact (proj1 (proj1 (proj2 (proj2 (proj2
           (C2_arguments_sent_and_part_returned Py2 ascii_upper
              (CallAccountViewpass (JInt 7))
              (fresh (JString "k") "https://vault/api.php" (JString "p"))))))
           account_password
           (JObject [("itemId", JInt 7);
                     ("result", JObject [("password", JString "s3cret")]);
                     ("resultCode", JInt 0); ("count", JInt 1)])
           eq_refl eq_refl) eq_refl).
Defined.

(** ** The password of a new entry *)

Lemma sample_total (draw : nat -> nat -> nat) (pool : list ascii) (n i : nat) :
  bounded draw -> pool <> [] -> exists pw, sample draw pool i n = Some pw.
Proof.
  intros Hdraw Hpool. revert i. induction n as [| k IH]; intros i; cbn.
  - now exists [].
  - assert (Hlt : (draw i (List.length pool) < List.length pool)%nat).
    { apply Hdraw. destruct pool; [now elim Hpool | cbn; lia]. }
    apply nth_error_Some in Hlt.
    destruct (nth_error pool (draw i (List.length pool))) as [ch |];
      [| now elim Hlt].
    destruct (IH (S i)) as [rest Hrest]. rewrite Hrest. now exists (ch :: rest).
Qed.

Lemma sample_sound (draw : nat -> nat -> nat) (pool : list ascii) (n i : nat)
    (pw : list ascii) :
  sample draw pool i n = Some pw ->
  List.length pw = n /\ Forall (fun ch => In ch pool) pw.
Proof.
  revert i pw. induction n as [| k IH]; intros i pw; cbn.
  - intros H. inversion H. split; [reflexivity | constructor].
  - destruct (nth_error pool (draw i (List.length pool))) as [ch |] eqn:E;
      [| discriminate].
    destruct (sample draw pool (S i) k) as [rest |] eqn:Erest; [| discriminate].
    intros H. inversion H; subst. destruct (IH _ _ Erest) as [Hlen Hall].
    split; [cbn; now rewrite Hlen |].
    constructor; [eapply nth_error_In; exact E | exact Hall].
Qed.

(** C3.  Under bounded draws, the generator produces a password for every
    length and every selection of classes that offers at least one character,
    and a password it produces has exactly the length asked for, each of its
    characters belonging to one of the classes asked for. *)
Theorem C3_random_password_length_and_classes :
  forall (draw : nat -> nat -> nat) (length : nat) (classes : list (list ascii)),
  bounded draw ->
  (candidate_chars classes <> [] ->
     exists pw, random_password draw length classes = Some pw)
  /\ (forall pw : list ascii,
        random_password draw length classes = Some pw ->
        List.length pw = length
        /\ Forall (fun ch => exists cls, In cls classes /\ In ch cls) pw).
Proof.
  intros draw length classes Hdraw. unfold random_password. split.
  - intros Hpool. now apply sample_total.
  - intros pw Hpw. destruct (sample_sound _ _ _ _ _ Hpw) as [Hlen Hall].
    split; [exact Hlen |].
    eapply Forall_impl; [| exact Hall].
    intros ch Hch. unfold candidate_chars in Hch.
    apply in_concat in Hch. destruct Hch as (cls & Hcls & Hin). now exists cls.
Qed.

(** C3 at four draws over the classes [ab] and [01]. *)
Lemma C3_random_password_length_and_classes_witness :
  random_password round_robin 4
    [list_ascii_of_string "ab"; list_ascii_of_string "01"]
    = Some (list_ascii_of_string "ab01")
  /\ List.length (list_ascii_of_string "ab01") = 4%nat.
Proof.
  assert (Hb : bounded round_robin).
  { intros i bound Hpos. unfold round_robin. apply Nat.mod_upper_bound. lia. }
  split; [reflexivity |].
  exact (proj1 (proj2 (C3_random_password_length_and_classes round_robin 4
                         [list_ascii_of_string "ab"; list_ascii_of_string "01"] Hb)
                  (list_ascii_of_string "ab01") eq_refl)).
Defined.

(** ** Further properties of the methods *)

Ltac run_method := unfold_methods; unfold_monad; cbn.

(** Whatever the remote side, a call sends one request and its outcome is
    decided by what comes back for that request alone. *)
Lemma call_outcome (ver : PyVersion) (upper : string -> string)
    (env : list Request -> HttpOutcome) (c : OpCall) (w : World) :
  exists rq,
    log (fst (run_op ver upper env c w)) = (log w ++ [rq])%list
    /\ snd (run_op ver upper env c w)
       = match env (log w ++ [rq])%list with
         | PostRaises => Raises RequestException
         | BodyNotJson => Raises ValueError
         | BodyJson doc => snd (run_op ver upper (always doc) c w)
         end.
Proof.
  destruct c; run_method;
    match goal with
    | |- context [env (log w ++ ?x)%list] => destruct (env (log w ++ x)%list) eqn:E
    end; cbn; eexists; (split; [reflexivity |]); rewrite E; reflexivity.
Qed.

(** X1.  A failure of the transport and a body that is not JSON are not
    turned into [AnsibleError]: when [requests.post] raises for the request of
    a call, the call ends with that exception, and when the body of the
    response does not parse, with the [ValueError] of [json()]. *)
Theorem X1_transport_failures_propagate :
  forall (ver : PyVersion) (upper : string -> string)
    (env : list Request -> HttpOutcome) (c : OpCall) (w : World),
  (env (log (fst (run_op ver upper env c w))) = PostRaises ->
     snd (run_op ver upper env c w) = Raises RequestException)
  /\ (env (log (fst (run_op ver upper env c w))) = BodyNotJson ->
        snd (run_op ver upper env c w) = Raises ValueError).
Proof.
  intros ver upper env c w.
  destruct (call_outcome ver upper env c w) as (rq & Hlog & Hout).
  rewrite Hlog, Hout. split; intros H; rewrite H; reflexivity.
Qed.

(** X1 at a remote side that cannot be reached, then at one that answers a
    page that is not JSON. *)
Lemma X1_transport_failures_propagate_witness :
  snd (run_op Py2 ascii_upper (fun _ => PostRaises) CallBackup
         (fresh (JString "k") "https://vault/api.php" (JString "p")))
    = Raises RequestException
  /\ snd (run_op Py2 ascii_upper (fun _ => BodyNotJson) (CallTagCreate (JString "t"))
            (fresh (JString "k") "https://vault/api.php" (JString "p")))
    = Raises ValueError.
Proof.
  split.
  - exact (proj1 (X1_transport_failures_propagate Py2 ascii_upper
                    (fun _ => PostRaises) CallBackup
                    (fresh (JString "k") "https://vault/api.php" (JString "p")))
             eq_refl).
  - exact (proj2 (X1_transport_failures_propagate Py2 ascii_upper
                    (fun _ => BodyNotJson) (CallTagCreate (JString "t"))
                    (fresh (JString "k") "https://vault/api.php" (JString "p")))
             eq_refl).
Defined.

(** X2.  On an answer that is an object without a [result] member, every
    method but [Backup] ends with [KeyError('result')], whatever else the
    answer holds; [Backup] raises [AnsibleError] built from the answer. *)
Theorem X2_answer_without_result :
  forall (ver : PyVersion) (upper : string -> string) (c : OpCall) (w : World)
    (kv : list (string * json)),
  assoc "result" kv = None ->
  snd (run_op ver upper (always (JObject kv)) c w)
    = match c with
      | CallBackup => Raises (AnsibleError "Backup Error : " (JObject kv))
      | _ => Raises (KeyError (JString "result"))
      end.
Proof.
  intros ver upper c w kv H.
  destruct c; run_method; rewrite H; reflexivity.
Qed.

(** X2 at the error envelope, for a search. *)
Lemma X2_answer_without_result_witness :
  snd (run_op Py3 ascii_upper (always error_envelope)
         (CallClientSearch "acme" JNull)
         (fresh (JString "k") "https://vault/api.php" (JString "p")))
    = Raises (KeyError (JString "result")).
Proof.
  exact (X2_answer_without_result Py3 ascii_upper (CallClientSearch "acme" JNull)
           (fresh (JString "k") "https://vault/api.php" (JString "p"))
           [("jsonrpc", JString "2.0");
            ("error", JObject [("message", JString "Internal error");
                               ("code", JInt (-32603)); ("data", JNull)]);
            ("id", JInt 1)]
           eq_refl).
Defined.

(** X3.  [Backup] returns exactly when the answer is an object with a
    [result] member, and then returns that member; otherwise it raises
    [TypeError] (the answer is not an object) or [AnsibleError] built from
    the answer, never [KeyError]. *)
Theorem X3_Backup_outcomes :
  forall (req : json) (w : World),
  match snd (Backup (always req) w) with
  | Returns v => getitem req "result" = Returns v
  | Raises e =>
      (forall v, getitem req "result" <> Returns v)
      /\ (e = TypeError \/ e = AnsibleError "Backup Error : " req)
  end.
Proof.
  intros req w. run_method.
  destruct req as [| b | z | f | s | l | kv]; cbn;
    try (split; [discriminate | left; reflexivity]).
  - destruct (is_substring "result" s); cbn;
      (split; [discriminate | auto]).
  - destruct (existsb (is_text "result") l); cbn;
      (split; [discriminate | auto]).
  - destruct (assoc "result" kv) as [v |]; cbn.
    + reflexivity.
    + split; [discriminate | right; reflexivity].
Qed.

Lemma requests_of_calls (ver : PyVersion) (upper : string -> string)
    (env : list Request -> HttpOutcome) (cs : list OpCall) (w : World) :
  exists sent,
    log (run_ops ver upper env cs w) = (log w ++ sent)%list
    /\ request_ids sent = ids_from (rId (client w)) (List.length cs)
    /\ Forall (fun rq => url rq = API_URL (client w)) sent.
Proof.
  revert w. induction cs as [| c rest IH]; intros w; cbn [run_ops List.length ids_from].
  - exists []. rewrite app_nil_r. repeat split; constructor.
  - destruct (one_call_effect ver upper env c w) as (d & v & E & Hid & _).
    destruct (IH (fst (run_op ver upper env c w))) as (sent & Hlog & Hids & Hurl).
    rewrite E in Hlog, Hids, Hurl |- *. cbn in Hlog, Hids, Hurl.
    eexists. rewrite Hlog, <- app_assoc. split; [reflexivity |]. split.
    + unfold request_ids in *. cbn. rewrite Hid, Hids. reflexivity.
    + constructor; [reflexivity | exact Hurl].
Qed.

(** X4.  The calls made one after the other on a fresh instance send as many
    requests as there are calls, all to the [API_URL] the instance was built
    with, and their ids are 1, 2, 3, ... in the order of the calls, whether
    the calls return or raise. *)
Theorem X4_request_ids_count_up :
  forall (ver : PyVersion) (upper : string -> string)
    (env : list Request -> HttpOutcome) (cs : list OpCall)
    (key : json) (endpoint : string) (tokpwd : json),
  let w := run_ops ver upper env cs (fresh key endpoint tokpwd) in
  request_ids (log w) = ids_from 1 (List.length cs)
  /\ List.length (log w) = List.length cs
  /\ Forall (fun rq => url rq = endpoint) (log w).
Proof.
  intros ver upper env cs key endpoint tokpwd w. subst w.
  destruct (requests_of_calls ver upper env cs (fresh key endpoint tokpwd))
    as (sent & Hlog & Hids & Hurl).
  cbn in Hlog, Hids, Hurl. rewrite Hlog.
  split; [exact Hids |]. split; [| exact Hurl].
  assert (Hlen : List.length (request_ids sent) = List.length cs).
  { rewrite Hids. clear. generalize 1. induction cs; intros z; cbn;
      [reflexivity | now rewrite IHcs]. }
  unfold request_ids in Hlen. now rewrite length_map in Hlen.
Qed.

(** X5.  Every method but [AccountSearch] posts with [verify = False], so
    without checking the certificate of the server; [AccountSearch] posts
    with the default of [requests], which checks it. *)
Theorem X5_certificate_check :
  forall (ver : PyVersion) (upper : string -> string)
    (env : list Request -> HttpOutcome) (c : OpCall) (w : World),
  exists rq,
    log (fst (run_op ver upper env c w)) = (log w ++ [rq])%list
    /\ verify rq = is_AccountSearch c.
Proof.
  intros ver upper env c w.
  destruct c; run_method;
    match goal with
    | |- context [env ?h] => destruct (env h)
    end; cbn; eexists; split; reflexivity.
Qed.

(** X6.  The request of every call carries the [API_KEY] of the instance as
    [authToken]; it carries [API_ACC_TOKPWD] as [tokenPass] when the method
    is [AccountViewpass], [AccountCreate] or [AccountDelete], and has no
    [tokenPass] member otherwise. *)
Theorem X6_credentials_sent :
  forall (ver : PyVersion) (upper : string -> string)
    (env : list Request -> HttpOutcome) (c : OpCall) (w : World),
  exists rq params,
    log (fst (run_op ver upper env c w)) = (log w ++ [rq])%list
    /\ getitem (body rq) "params" = Returns (JObject params)
    /\ assoc "authToken" params = Some (API_KEY (client w))
    /\ assoc "tokenPass" params
       = if sends_tokenPass c then Some (API_ACC_TOKPWD (client w)) else None.
Proof.
  intros ver upper env c w.
  destruct c; run_method;
    match goal with
    | |- context [env ?h] => destruct (env h)
    end; cbn; eexists; eexists; repeat split; reflexivity.
Qed.

Lemma good_or_error (b : bool) (r : json) (e : exn) :
  ((if b then Returns r else Raises e) = Returns r <-> b = true)
  /\ (b = false -> (if b then Returns r else Raises e) = Raises e).
Proof. destruct b; repeat split; try reflexivity; discriminate. Qed.

(** X7.  On an answer whose [result] has a numeric [itemId], each create
    method returns that [result] exactly when [itemId] is greater than zero,
    and otherwise raises [AnsibleError] built from the whole answer. *)
Theorem X7_create_returns_iff_positive_itemId :
  forall (ver : PyVersion) (req r c : json) (w : World)
    (name categoryId clientId password login url tags notes : json)
    (private privateGroup userGroupId expireDate parentId description Global : json),
  getitem req "result" = Returns r ->
  getitem r "itemId" = Returns c ->
  is_number c = true ->
  let settled (o : outcome json) (prefix : string) :=
    (o = Returns r <-> json_gt0 c = true)
    /\ (json_gt0 c = false -> o = Raises (AnsibleError prefix req)) in
  settled (snd (AccountCreate ver (always req) name categoryId clientId password
                  login url tags notes private privateGroup userGroupId expireDate
                  parentId w)) "AccountCreate Error : "
  /\ settled (snd (CategoryCreate ver (always req) name description w))
       "CategoryCreate Error : "
  /\ settled (snd (ClientCreate ver (always req) name description Global w))
       "ClientCreate Error : "
  /\ settled (snd (TagCreate ver (always req) name w)) "TagCreate Error : "
  /\ settled (snd (UserGroupCreate ver (always req) name description w))
       "UserGroupCreate Error : ".
Proof.
  intros ver req r c w name categoryId clientId password login url tags notes
    private privateGroup userGroupId expireDate parentId description Global
    Hr Hc Hn settled. subst settled.
  destruct (create_on_itemId ver req r c w name categoryId clientId password login
              url tags notes private privateGroup userGroupId expireDate parentId
              description Global Hr Hc Hn) as (Ha & Hcat & Hcli & Htag & Hug).
  cbv beta in *. rewrite Ha, Hcat, Hcli, Htag, Hug.
  repeat split; try apply good_or_error; intros H; now apply good_or_error.
Qed.

(** X7 at the answer to a create that made item 12. *)
Lemma X7_create_returns_iff_positive_itemId_witness :
  snd (TagCreate Py3 (always item_done) (JString "prod")
         (fresh (JString "k") "https://vault/api.php" (JString "p")))
    = Returns (JObject [("itemId", JInt 12); ("result", JNull);
                        ("resultCode", JInt 0); ("count", JNull)]).
Proof.
  destruct (X7_create_returns_iff_positive_itemId Py3 item_done
              (JObject [("itemId", JInt 12); ("result", JNull);
                        ("resultCode", JInt 0); ("count", JNull)])
              (JInt 12) (fresh (JString "k") "https://vault/api.php" (JString "p"))
              (JString "prod") JNull JNull JNull JNull JNull JNull JNull JNull JNull
              JNull JNull JNull JNull JNull eq_refl eq_refl eq_refl)
    as (_ & _ & _ & [Htag _] & _).
  apply Htag. reflexivity.
Defined.

(** X8.  On an answer whose [result] has a [resultCode], each delete method
    returns that [result] exactly when [resultCode == 0] holds, and
    otherwise raises [AnsibleError] built from the whole answer. *)
Theorem X8_delete_returns_iff_zero_resultCode :
  forall (req r c : json) (w : World) (Id : json),
  getitem req "result" = Returns r ->
  getitem r "resultCode" = Returns c ->
  let settled (o : outcome json) (prefix : string) :=
    (o = Returns r <-> py_eq0 c = true)
    /\ (py_eq0 c = false -> o = Raises (AnsibleError prefix req)) in
  settled (snd (AccountDelete (always req) Id w)) "AccountDelete Error : "
  /\ settled (snd (CategoryDelete (always req) Id w)) "CategoryDelete Error : "
  /\ settled (snd (ClientDelete (always req) Id w)) "ClientDelete Error : "
  /\ settled (snd (TagDelete (always req) Id w)) "TagDelete Error : "
  /\ settled (snd (UserGroupDelete (always req) Id w)) "UserGroupDelete Error : ".
Proof.
  intros req r c w Id Hr Hc settled. subst settled.
  destruct (delete_on_resultCode req r c w Id Hr Hc)
    as (Ha & Hcat & Hcli & Htag & Hug).
  cbv beta in *. rewrite Ha, Hcat, Hcli, Htag, Hug.
  repeat split; try apply good_or_error; intros H; now apply good_or_error.
Qed.

(** X8 at the answer to a delete that was carried out. *)
Lemma X8_delete_returns_iff_zero_resultCode_witness :
  snd (AccountDelete (always item_done) (JInt 12)
         (fresh (JString "k") "https://vault/api.php" (JString "p")))
    = Returns (JObject [("itemId", JInt 12); ("result", JNull);
                        ("resultCode", JInt 0); ("count", JNull)]).
Proof.
  destruct (X8_delete_returns_iff_zero_resultCode item_done
              (JObject [("itemId", JInt 12); ("result", JNull);
                        ("resultCode", JInt 0); ("count", JNull)])
              (JInt 0) (fresh (JString "k") "https://vault/api.php" (JString "p"))
              (JInt 12) eq_refl eq_refl)
    as ([Hacc _] & _).
  apply Hacc. reflexivity.
Defined.

(** X9.  On an answer whose [result] has a numeric [count]: when the count is
    greater than zero [AccountView] returns [result.result] and
    [AccountViewpass] the [password] member of [result.result] (the call
    ends with the exception of the subscript when a member is missing);
    when it is not, both raise [AnsibleError] built from the whole answer. *)
Theorem X9_view_on_count :
  forall (ver : PyVersion) (req r c : json) (w : World) (uId : json),
  getitem req "result" = Returns r ->
  getitem r "count" = Returns c ->
  is_number c = true ->
  snd (AccountView ver (always req) uId w)
    = (if json_gt0 c then getitem r "result"
       else Raises (AnsibleError "AccountView Error : " req))
  /\ snd (AccountViewpass ver (always req) uId w)
     = (if json_gt0 c then a <~ getitem r "result" ;; getitem a "password"
        else Raises (AnsibleError "AccountViewpass Error : " req)).
Proof.
  intros ver req r c w uId Hr Hc Hn. run_method.
  rewrite Hr; cbn. rewrite Hc; cbn. rewrite (py_gt0_number ver c Hn); cbn.
  destruct (json_gt0 c); split; reflexivity.
Qed.

(** X9 at [account_password] and at an answer that found nothing. *)
Lemma X9_view_on_count_witness :
  snd (AccountViewpass Py3 (always account_password) (JInt 7)
         (fresh (JString "k") "https://vault/api.php" (JString "p")))
    = Returns (JString "s3cret")
  /\ snd (AccountView Py3 (always nothing_found) (JInt 7)
            (fresh (JString "k") "https://vault/api.php" (JString "p")))
     = Raises (AnsibleError "AccountView Error : " nothing_found).
Proof.
  split.
  - exact (proj2 (X9_view_on_count Py3 account_password
                    (JObject [("itemId", JInt 7);
                              ("result", JObject [("password", JString "s3cret")]);
                              ("resultCode", JInt 0); ("count", JInt 1)])
                    (JInt 1) (fresh (JString "k") "https://vault/api.php" (JString "p"))
                    (JInt 7) eq_refl eq_refl eq_refl)).
  - exact (proj1 (X9_view_on_count Py3 nothing_found
                    (JObject [("itemId", JInt 0); ("result", JList []);
                              ("resultCode", JInt 0); ("count", JInt 0)])
                    (JInt 0) (fresh (JString "k") "https://vault/api.php" (JString "p"))
                    (JInt 7) eq_refl eq_refl eq_refl)).
Defined.

(** X10.  Nothing found: on an answer whose [result.count] the test
    [count > 0] finds not positive and that has no [error] member, every
    search method returns [None], [AccountSearch] with or without a
    [matchAll]. *)
Theorem X10_search_nothing_found :
  forall (ver : PyVersion) (upper : string -> string) (w : World) (text : string)
    (count categoryId clientId matchAll req r c : json),
  getitem req "result" = Returns r ->
  getitem r "count" = Returns c ->
  py_gt0 ver c = Returns false ->
  py_in "error" req = Returns false ->
  snd (AccountSearch ver (always req) text count categoryId clientId matchAll w)
    = Returns JNull
  /\ snd (CategorySearch ver (always req) text count w) = Returns JNull
  /\ snd (ClientSearch ver upper (always req) text count w) = Returns JNull
  /\ snd (TagSearch ver upper (always req) text count w) = Returns JNull
  /\ snd (UserGroupSearch ver upper (always req) text count w) = Returns JNull.
Proof.
  intros ver upper w text count categoryId clientId matchAll req r c
    Hr Hc Hgt Herr. run_method.
  rewrite Hr; cbn. rewrite Hc; cbn. rewrite Hgt; cbn. rewrite Herr; cbn.
  repeat split; reflexivity.
Qed.

(** X10 at [nothing_found]. *)
Lemma X10_search_nothing_found_witness :
  snd (CategorySearch Py3 (always nothing_found) "MySQL" JNull
         (fresh (JString "k") "https://vault/api.php" (JString "p")))
    = Returns JNull.
Proof.
  exact (proj1 (proj2 (X10_search_nothing_found Py3 ascii_upper
           (fresh (JString "k") "https://vault/api.php" (JString "p")) "MySQL"
           JNull JNull JNull JNull nothing_found
           (JObject [("itemId", JInt 0); ("result", JList []);
                     ("resultCode", JInt 0); ("count", JInt 0)])
           (JInt 0) eq_refl eq_refl eq_refl eq_refl))).
Defined.

(** X11.  [AccountSearch] called with a [matchAll] other than [None], on an
    answer whose [result.count] is a positive number, returns whatever is
    under [result.result], without looking at the names or at the search
    text. *)
Theorem X11_AccountSearch_matchAll :
  forall (ver : PyVersion) (w : World) (text : string)
    (count categoryId clientId matchAll req r c : json),
  matchAll <> JNull ->
  getitem req "result" = Returns r ->
  getitem r "count" = Returns c ->
  json_gt0 c = true ->
  snd (AccountSearch ver (always req) text count categoryId clientId matchAll w)
    = getitem r "result".
Proof.
  intros ver w text count categoryId clientId matchAll req r c Hm Hr Hc Hpos.
  run_method. rewrite Hr; cbn. rewrite Hc; cbn.
  rewrite (py_gt0_positive ver c Hpos); cbn.
  destruct matchAll; try (now elim Hm); cbn;
    destruct (getitem r "result"); reflexivity.
Qed.

(** X11 at [two_accounts], searched for a text no account is named by. *)
Lemma X11_AccountSearch_matchAll_witness :
  snd (AccountSearch Py2 (always two_accounts) "zzz" JNull JNull JNull (JBool true)
         (fresh (JString "k") "https://vault/api.php" (JString "p")))
    = Returns (JList [JObject [("id", JInt 1); ("name", JString "db-old")];
                      JObject [("id", JInt 2); ("name", JString "db")]]).
Proof.
  refine (X11_AccountSearch_matchAll Py2
            (fresh (JString "k") "https://vault/api.php" (JString "p")) "zzz"
            JNull JNull JNull (JBool true) two_accounts
            (JObject [("count", JInt 2);
                      ("result", JList [JObject [("id", JInt 1); ("name", JString "db-old")];
                                        JObject [("id", JInt 2); ("name", JString "db")]])])
            (JInt 2) _ eq_refl eq_refl eq_refl).
  discriminate.
Defined.

Lemma search_loop_raises (test : json -> outcome bool) (hit : outcome json)
    (pre : list json) (e : json) (post : list json) (ex : exn) :
  Forall (fun x => test x = Returns false) pre ->
  test e = Raises ex ->
  search_loop test hit (pre ++ e :: post) = Raises ex.
Proof.
  intros Hpre He. induction Hpre as [| x rest Hx _ IH]; cbn.
  - rewrite He. reflexivity.
  - rewrite Hx; cbn. exact IH.
Qed.

(** X12.  A search stops at the first entry whose name cannot be read: when
    the entries before it do not match and reading its [name] raises
    ([KeyError] for an object without the member, [TypeError] for an entry
    that is not an object), the search ends with that exception, whatever
    follows in the list, a matching entry included. *)
Theorem X12_unreadable_name_ends_search :
  forall (ver : PyVersion) (upper : string -> string) (w : World) (text : string)
    (count categoryId clientId req r c : json) (pre : list json) (e : json)
    (post : list json) (ex : exn),
  getitem req "result" = Returns r ->
  getitem r "count" = Returns c ->
  json_gt0 c = true ->
  getitem r "result" = Returns (JList (pre ++ e :: post)) ->
  getitem e "name" = Raises ex ->
  (Forall (name_differs text) pre ->
     snd (AccountSearch ver (always req) text count categoryId clientId JNull w)
       = Raises ex
     /\ snd (CategorySearch ver (always req) text count w) = Raises ex)
  /\ (Forall (name_differs_upper upper text) pre ->
        snd (ClientSearch ver upper (always req) text count w) = Raises ex
        /\ snd (TagSearch ver upper (always req) text count w) = Raises ex
        /\ snd (UserGroupSearch ver upper (always req) text count w) = Raises ex).
Proof.
  intros ver upper w text count categoryId clientId req r c pre e post ex
    Hr Hc Hpos Hl He.
  destruct (search_is_loop ver upper req r c (pre ++ e :: post) w text count
              categoryId clientId Hr Hc Hpos Hl) as (Ha & Hcat & Hcli & Htag & Hug).
  split; intros Hpre.
  - rewrite Ha, Hcat, (search_loop_raises (name_is text) _ pre e post ex).
    + split; reflexivity.
    + eapply Forall_impl; [| exact Hpre]. intros x. apply name_is_false.
    + unfold name_is. rewrite He. reflexivity.
  - rewrite Hcli, Htag, Hug,
      (search_loop_raises (name_is_upper upper text) _ pre e post ex).
    + repeat split; reflexivity.
    + eapply Forall_impl; [| exact Hpre]. intros x. apply name_is_upper_false.
    + unfold name_is_upper. rewrite He. reflexivity.
Qed.

(** X12 at a list whose first entry has no name and whose second is the one
    searched for. *)
Lemma X12_unreadable_name_ends_search_witness :
  snd (CategorySearch Py3
         (always (JObject [("result",
                            JObject [("count", JInt 2);
                                     ("result", JList [JObject [("id", JInt 1)];
                                                       JObject [("name", JString "db")]])])]))
         "db" JNull
         (fresh (JString "k") "https://vault/api.php" (JString "p")))
    = Raises (KeyError (JString "name")).
Proof.
  refine (proj2 (proj1 (X12_unreadable_name_ends_search Py3 ascii_upper
            (fresh (JString "k") "https://vault/api.php" (JString "p")) "db"
            JNull JNull JNull
            (JObject [("result",
                       JObject [("count", JInt 2);
                                ("result", JList [JObject [("id", JInt 1)];
                                                  JObject [("name", JString "db")]])])])
            (JObject [("count", JInt 2);
                      ("result", JList [JObject [("id", JInt 1)];
                                        JObject [("name", JString "db")]])])
            (JInt 2) [] (JObject [("id", JInt 1)]) [JObject [("name", JString "db")]]
            (KeyError (JString "name")) eq_refl eq_refl eq_refl eq_refl eq_refl) _)).
  constructor.
Defined.

(** X13.  An entry whose name is not a text (a number, [null]) is passed
    over by [AccountSearch] and [CategorySearch], which go on and return
    [None] when no other entry matches, while [ClientSearch], [TagSearch] and
    [UserGroupSearch], reaching it, end with [AttributeError]: the name has
    no [upper]. *)
Theorem X13_name_that_is_not_text :
  forall (ver : PyVersion) (upper : string -> string) (w : World) (text : string)
    (count categoryId clientId req r c : json) (pre : list json) (e n : json)
    (post : list json),
  getitem req "result" = Returns r ->
  getitem r "count" = Returns c ->
  json_gt0 c = true ->
  getitem r "result" = Returns (JList (pre ++ e :: post)) ->
  getitem e "name" = Returns n ->
  is_text_value n = false ->
  (Forall (name_differs text) (pre ++ post) ->
     snd (AccountSearch ver (always req) text count categoryId clientId JNull w)
       = Returns JNull
     /\ snd (CategorySearch ver (always req) text count w) = Returns JNull)
  /\ (Forall (name_differs_upper upper text) pre ->
        snd (ClientSearch ver upper (always req) text count w) = Raises AttributeError
        /\ snd (TagSearch ver upper (always req) text count w) = Raises AttributeError
        /\ snd (UserGroupSearch ver upper (always req) text count w)
           = Raises AttributeError).
Proof.
  intros ver upper w text count categoryId clientId req r c pre e n post
    Hr Hc Hpos Hl He Hn.
  destruct (search_is_loop ver upper req r c (pre ++ e :: post) w text count
              categoryId clientId Hr Hc Hpos Hl) as (Ha & Hcat & Hcli & Htag & Hug).
  split; intros Hpre.
  - rewrite Ha, Hcat, search_loop_no_hit; [split; reflexivity |].
    apply Forall_app in Hpre. destruct Hpre as [H1 H2].
    apply Forall_app. split; [| constructor].
    + eapply Forall_impl; [| exact H1]. intros x. apply name_is_false.
    + apply name_is_false. exists n. split; [exact He |].
      intros ->. discriminate Hn.
    + eapply Forall_impl; [| exact H2]. intros x. apply name_is_false.
  - rewrite Hcli, Htag, Hug,
      (search_loop_raises (name_is_upper upper text) _ pre e post AttributeError).
    + repeat split; reflexivity.
    + eapply Forall_impl; [| exact Hpre]. intros x. apply name_is_upper_false.
    + unfold name_is_upper. rewrite He; cbn. destruct n; try reflexivity.
      discriminate Hn.
Qed.

(** X13 at a single entry named by the number 42. *)
Lemma X13_name_that_is_not_text_witness :
  snd (CategorySearch Py3
         (always (JObject [("result",
                            JObject [("count", JInt 1);
                                     ("result", JList [JObject [("name", JInt 42)]])])]))
         "42" JNull
         (fresh (JString "k") "https://vault/api.php" (JString "p")))
    = Returns JNull
  /\ snd (TagSearch Py3 ascii_upper
            (always (JObject [("result",
                               JObject [("count", JInt 1);
                                        ("result", JList [JObject [("name", JInt 42)]])])]))
            "42" JNull
            (fresh (JString "k") "https://vault/api.php" (JString "p")))
     = Raises AttributeError.
Proof.
  destruct (X13_name_that_is_not_text Py3 ascii_upper
              (fresh (JString "k") "https://vault/api.php" (JString "p")) "42"
              JNull JNull JNull
              (JObject [("result",
                         JObject [("count", JInt 1);
                                  ("result", JList [JObject [("name", JInt 42)]])])])
              (JObject [("count", JInt 1);
                        ("result", JList [JObject [("name", JInt 42)]])])
              (JInt 1) [] (JObject [("name", JInt 42)]) (JInt 42) []
              eq_refl eq_refl eq_refl eq_refl eq_refl eq_refl) as [Hexact Hupper].
  split.
  - apply Hexact. constructor.
  - apply Hupper. constructor.
Defined.

(** X14.  The upper-casing searches find whatever the exact ones find: on an
    answer with a positive numeric count whose entries are named by texts,
    one of which is the search text itself, all five searches return the
    entry at index 0 of the list. *)
Theorem X14_exact_name_found_by_every_search :
  forall (ver : PyVersion) (upper : string -> string) (w : World) (text : string)
    (count categoryId clientId req r c : json) (l : list json)
    (names : list string),
  getitem req "result" = Returns r ->
  getitem r "count" = Returns c ->
  json_gt0 c = true ->
  getitem r "result" = Returns (JList l) ->
  Forall2 (fun e n => getitem e "name" = Returns (JString n)) l names ->
  In text names ->
  exists first,
    nth_error l 0 = Some first
    /\ snd (AccountSearch ver (always req) text count categoryId clientId JNull w)
       = Returns first
    /\ snd (CategorySearch ver (always req) text count w) = Returns first
    /\ snd (ClientSearch ver upper (always req) text count w) = Returns first
    /\ snd (TagSearch ver upper (always req) text count w) = Returns first
    /\ snd (UserGroupSearch ver upper (always req) text count w) = Returns first.
Proof.
  intros ver upper w text count categoryId clientId req r c l names
    Hr Hc Hpos Hl Hnames Hin.
  destruct (search_is_loop ver upper req r c l w text count categoryId clientId
              Hr Hc Hpos Hl) as (Ha & Hcat & Hcli & Htag & Hug).
  destruct (loops_over_names upper text (getitem0 (JList l)) l names Hnames)
    as [Hexact Hupper].
  assert (E1 : existsb (fun n => String.eqb n text) names = true).
  { apply existsb_exists. exists text. split; [exact Hin | apply String.eqb_refl]. }
  assert (E2 : existsb (fun n => String.eqb (upper n) (upper text)) names = true).
  { apply existsb_exists. exists text. split; [exact Hin | apply String.eqb_refl]. }
  rewrite E1 in Hexact. rewrite E2 in Hupper.
  destruct l as [| first rest].
  - inversion Hnames; subst. destruct Hin.
  - exists first. rewrite Ha, Hcat, Hcli, Htag, Hug, Hexact, Hupper.
    repeat split; reflexivity.
Qed.

(** X14 at [two_accounts], searched for [db]. *)
Lemma X14_exact_name_found_by_every_search_witness :
  exists first,
    nth_error [JObject [("id", JInt 1); ("name", JString "db-old")];
               JObject [("id", JInt 2); ("name", JString "db")]] 0 = Some first
    /\ snd (ClientSearch Py3 ascii_upper (always two_accounts) "db" JNull
              (fresh (JString "k") "https://vault/api.php" (JString "p")))
       = Returns first.
Proof.
  assert (Hnames : Forall2
            (fun e n => getitem e "name" = Returns (JString n))
            [JObject [("id", JInt 1); ("name", JString "db-old")];
             JObject [("id", JInt 2); ("name", JString "db")]] ["db-old"; "db"]).
  { repeat constructor. }
  destruct (X14_exact_name_found_by_every_search Py3 ascii_upper
              (fresh (JString "k") "https://vault/api.php" (JString "p")) "db"
              JNull JNull JNull two_accounts
              (JObject [("count", JInt 2);
                        ("result", JList [JObject [("id", JInt 1); ("name", JString "db-old")];
                                          JObject [("id", JInt 2); ("name", JString "db")]])])
              (JInt 2)
              [JObject [("id", JInt 1); ("name", JString "db-old")];
               JObject [("id", JInt 2); ("name", JString "db")]] ["db-old"; "db"]
              eq_refl eq_refl eq_refl eq_refl Hnames (or_intror (or_introl eq_refl)))
    as (first & H0 & _ & _ & Hcli & _).
  exists first. split; [exact H0 | exact Hcli].
Defined.

(** X15.  Under Python 3, a method that tests [count > 0] or [itemId > 0]
    ends with [TypeError] when the answer has that member and its value is
    neither a number nor a boolean: [null], a text, a list or an object. *)
Theorem X15_python3_refuses_to_compare :
  forall (upper : string -> string) (c : OpCall) (w : World) (m : string)
    (req r v : json),
  compared_member c = Some m ->
  getitem req "result" = Returns r ->
  getitem r m = Returns v ->
  not_a_number v = true ->
  snd (run_op Py3 upper (always req) c w) = Raises TypeError.
Proof.
  intros upper c w m req r v Hm Hr Hv Hn.
  destruct c; cbn in Hm; try discriminate Hm; injection Hm as <-;
    run_method; rewrite Hr; cbn; rewrite Hv; cbn;
    destruct v; try discriminate Hn; reflexivity.
Qed.

(** X15 at [item_done], whose [count] is [null]. *)
Lemma X15_python3_refuses_to_compare_witness :
  snd (run_op Py3 ascii_upper (always item_done) (CallAccountView (JInt 12))
         (fresh (JString "k") "https://vault/api.php" (JString "p")))
    = Raises TypeError.
Proof.
  exact (X15_python3_refuses_to_compare ascii_upper (CallAccountView (JInt 12))
           (fresh (JString "k") "https://vault/api.php" (JString "p")) "count"
           item_done
           (JObject [("itemId", JInt 12); ("result", JNull);
                     ("resultCode", JInt 0); ("count", JNull)])
           JNull eq_refl eq_refl eq_refl eq_refl).
Defined.

(** X16.  Under Python 2 the same comparison never raises.  A create method
    whose answer has an [itemId] that is not a number takes [null] as a
    failure and raises [AnsibleError] built from the answer, and takes a
    text, a list or an object as a success and returns [result], the text
    ["0"] included. *)
Theorem X16_python2_orders_other_values :
  forall (upper : string -> string) (c : OpCall) (w : World) (req r v : json),
  is_create c = true ->
  getitem req "result" = Returns r ->
  getitem r "itemId" = Returns v ->
  not_a_number v = true ->
  (v = JNull ->
     exists msg, snd (run_op Py2 upper (always req) c w)
                 = Raises (AnsibleError msg req))
  /\ (v <> JNull -> snd (run_op Py2 upper (always req) c w) = Returns r).
Proof.
  intros upper c w req r v Hc Hr Hv Hn.
  destruct c; cbn in Hc; try discriminate Hc;
    run_method; rewrite Hr; cbn; rewrite Hv; cbn;
    destruct v; try discriminate Hn; cbn;
    (split; [intros _; eexists; reflexivity | intros H; try reflexivity; now elim H])
    || (split; [intros H; discriminate H | intros _; reflexivity]).
Qed.

(** X16 at an answer whose [itemId] is the text ["0"]. *)
Lemma X16_python2_orders_other_values_witness :
  snd (run_op Py2 ascii_upper
         (always (JObject [("result", JObject [("itemId", JString "0")])]))
         (CallTagCreate (JString "prod"))
         (fresh (JString "k") "https://vault/api.php" (JString "p")))
    = Returns (JObject [("itemId", JString "0")]).
Proof.
  refine (proj2 (X16_python2_orders_other_values ascii_upper
            (CallTagCreate (JString "prod"))
            (fresh (JString "k") "https://vault/api.php" (JString "p"))
            (JObject [("result", JObject [("itemId", JString "0")])])
            (JObject [("itemId", JString "0")]) (JString "0")
            eq_refl eq_refl eq_refl eq_refl) _).
  discriminate.
Defined.
